(** * Pitch-plan automation: extraction, three-stage LLM pipeline, job runner

    A shallow embedding of [notion_extractor.py], [llm_pipeline.py] and
    [slack_bot.py].

    Conventions of the embedding.
    - A Python [str] is a [string]: the bytes of its UTF-8 encoding.
      Substring search on the bytes agrees with substring search on the
      code points.  [str.lower] and [str.strip] follow the Unicode tables
      of the interpreter: they are functions the [World] supplies, and
      every property is proved for whatever they are.  [Str.ascii_lower]
      and [Str.ascii_strip] are what they do on ASCII text, and serve in
      the sample worlds only.  [repr] of a text is modelled on ASCII
      text, where it is exact; a text itself is never passed through it.
    - Decoded JSON and the dictionaries the program builds are [pyval]s;
      a dictionary is an association list in insertion order, looked up
      at its first binding.  JSON numbers are integers (no field the
      program reads is a float).
    - The program is dynamically typed: every operation that Python can
      refuse returns in [result], with the exception it raises.
    - HTTP, the clock, the document backend, the text methods and the
      rendering of an exception by [str(e)] are the [World]; calls and
      chat messages are logged in the [state].  [print] writes to stdout
      only and is left out.
    - [main.py] is not embedded: it imports [create_app] from
      [slack_bot], which defines no such name, so the import raises
      before [main] is defined. *)

From Stdlib Require Import String Ascii List ZArith QArith Lia Bool.
From Stdlib Require Import DecimalString.
Import ListNotations.
Local Open Scope string_scope.
Local Open Scope Z_scope.

(** ** Strings *)

Module Str.

Definition nl : string := String "010" EmptyString.
Definition dquote : ascii := "034"%char.

(** [c.lower()] on one ASCII character: the letters A to Z are lowered,
    every other byte is kept. *)
Definition lower_ascii (c : ascii) : ascii :=
  let n := nat_of_ascii c in
  if andb (Nat.leb 65 n) (Nat.leb n 90) then ascii_of_nat (n + 32) else c.

(** What [s.lower()] is for a text in ASCII. *)
Fixpoint ascii_lower (s : string) : string :=
  match s with
  | EmptyString => EmptyString
  | String c t => String (lower_ascii c) (ascii_lower t)
  end.

(** [s.lower()], given the lowering [py_lower] of the interpreter; the
    empty text has nothing to lower. *)
Definition lower (py_lower : string -> string) (s : string) : string :=
  match s with
  | EmptyString => EmptyString
  | _ => py_lower s
  end.

(** [c.isspace()] for a character in ASCII; the white space of
    Unicode outside ASCII is not covered, which is why it serves
    [ascii_strip] only. *)
Definition is_space (c : ascii) : bool :=
  let n := nat_of_ascii c in
  orb (andb (Nat.leb 9 n) (Nat.leb n 13))
      (andb (Nat.leb 28 n) (Nat.leb n 32)).

Fixpoint lstrip (s : string) : string :=
  match s with
  | EmptyString => EmptyString
  | String c t => if is_space c then lstrip t else s
  end.

Fixpoint rstrip (s : string) : string :=
  match s with
  | EmptyString => EmptyString
  | String c t =>
      match rstrip t with
      | EmptyString => if is_space c then EmptyString else String c EmptyString
      | t' => String c t'
      end
  end.

(** What [s.strip()] is for a text in ASCII. *)
Definition ascii_strip (s : string) : string := rstrip (lstrip s).

(** [needle in hay] for two strings. *)
Fixpoint str_in (needle hay : string) : bool :=
  orb (String.prefix needle hay)
      (match hay with
       | EmptyString => false
       | String _ t => str_in needle t
       end).

(** The property [str_in] decides. *)
Definition Contains (hay needle : string) : Prop :=
  exists pre post, hay = pre ++ needle ++ post.

(** [sep.join(parts)]. *)
Fixpoint join (sep : string) (parts : list string) : string :=
  match parts with
  | [] => EmptyString
  | [p] => p
  | p :: rest => p ++ sep ++ join sep rest
  end.

(** [bool(s)]: a string is true when it is not empty. *)
Definition nonempty (s : string) : bool :=
  match s with EmptyString => false | _ => true end.

End Str.

(** ** Python values and exceptions *)

#[warnings="-register-all"]
Inductive pyval : Type :=
| PNone
| PBool (b : bool)
| PInt (n : Z)
| PStr (s : string)
| PList (l : list pyval)
| PDict (d : list (string * pyval)).

(** A dictionary with string keys, in insertion order. *)
Definition dict : Type := list (string * pyval).

Inductive exn : Type :=
| KeyError (key : pyval)
| IndexError
| TypeError
| AttributeError
| JSONDecodeError
| External (what : string).

Inductive result (A : Type) : Type :=
| Ok (a : A)
| Raise (e : exn).
Arguments Ok {A} a.
Arguments Raise {A} e.

Definition rbind {A B} (r : result A) (k : A -> result B) : result B :=
  match r with
  | Ok a => k a
  | Raise e => Raise e
  end.

Declare Scope res_scope.
Delimit Scope res_scope with res.
Notation "x <- c ;; k" := (rbind c (fun x => k))
  (at level 61, c at next level, right associativity) : res_scope.

Module Py.

(** [d.get(key)] on a dictionary, [None] of option when the key is absent. *)
Fixpoint lookup (key : string) (d : dict) : option pyval :=
  match d with
  | [] => None
  | (k, v) :: rest => if String.eqb k key then Some v else lookup key rest
  end.

(** [d.get(key, default)] on a dictionary. *)
Definition dget (d : dict) (key : string) (default : pyval) : pyval :=
  match lookup key d with
  | Some v => v
  | None => default
  end.

(** [key in d] on a dictionary. *)
Definition has_key (key : string) (d : dict) : bool :=
  match lookup key d with
  | Some _ => true
  | None => false
  end.

(** [v.get(key, default)]: only a dictionary has the method. *)
Definition get (v : pyval) (key : string) (default : pyval) : result pyval :=
  match v with
  | PDict d => Ok (dget d key default)
  | _ => Raise AttributeError
  end.

(** [v[key]] with a string key. *)
Definition item (v : pyval) (key : string) : result pyval :=
  match v with
  | PDict d =>
      match lookup key d with
      | Some x => Ok x
      | None => Raise (KeyError (PStr key))
      end
  | _ => Raise TypeError
  end.

(** [v[0]]. *)
Definition item0 (v : pyval) : result pyval :=
  match v with
  | PList [] => Raise IndexError
  | PList (x :: _) => Ok x
  | PStr EmptyString => Raise IndexError
  | PStr (String c _) => Ok (PStr (String c EmptyString))
  | PDict _ => Raise (KeyError (PInt 0))
  | _ => Raise TypeError
  end.

(** [bool(v)]. *)
Definition truthy (v : pyval) : bool :=
  match v with
  | PNone => false
  | PBool b => b
  | PInt n => negb (Z.eqb n 0)
  | PStr s => Str.nonempty s
  | PList l => match l with [] => false | _ => true end
  | PDict d => match d with [] => false | _ => true end
  end.

(** [v == s] for a string literal [s]. *)
Definition eq_str (v : pyval) (s : string) : bool :=
  match v with
  | PStr t => String.eqb t s
  | _ => false
  end.

Fixpoint chars (s : string) : list pyval :=
  match s with
  | EmptyString => []
  | String c t => PStr (String c EmptyString) :: chars t
  end.

(** The elements [for x in v] visits. *)
Definition iter (v : pyval) : result (list pyval) :=
  match v with
  | PList l => Ok l
  | PStr s => Ok (chars s)
  | PDict d => Ok (map (fun kv => PStr (fst kv)) d)
  | _ => Raise TypeError
  end.

(** [v.lower()]: only a string has the method. *)
Definition lower (py_lower : string -> string) (v : pyval) : result string :=
  match v with
  | PStr s => Ok (Str.lower py_lower s)
  | _ => Raise AttributeError
  end.

(** [sep.join(parts)]: every part must be a string. *)
Fixpoint strings (parts : list pyval) : result (list string) :=
  match parts with
  | [] => Ok []
  | PStr s :: rest =>
      match strings rest with
      | Ok l => Ok (s :: l)
      | Raise e => Raise e
      end
  | _ :: _ => Raise TypeError
  end.

Definition join (sep : string) (parts : list pyval) : result pyval :=
  match strings parts with
  | Ok l => Ok (PStr (Str.join sep l))
  | Raise e => Raise e
  end.

(** *** [repr] and [str] *)

(** [repr] of a text escapes the backslash, the quote in use and the
    characters that cannot be printed.  Below 128 those are the control
    characters, which is what [escape_char] escapes: [repr] here is the
    one of the interpreter on texts in ASCII, and statements about the
    rendering of a list or a dict are made for such texts.  [str] of a
    text is the text itself, whatever its characters. *)

Definition hex_digit (n : nat) : ascii :=
  if Nat.ltb n 10 then ascii_of_nat (48 + n) else ascii_of_nat (87 + n).

Definition escape_char (quote c : ascii) : string :=
  let n := nat_of_ascii c in
  let bs := String "\" EmptyString in
  if Ascii.eqb c "\" then bs ++ bs
  else if Ascii.eqb c quote then bs ++ String c EmptyString
  else if Nat.eqb n 10 then bs ++ "n"
  else if Nat.eqb n 13 then bs ++ "r"
  else if Nat.eqb n 9 then bs ++ "t"
  else if orb (Nat.ltb n 32) (Nat.eqb n 127)
       then bs ++ "x"
            ++ String (hex_digit (Nat.div n 16))
                 (String (hex_digit (Nat.modulo n 16)) EmptyString)
  else String c EmptyString.

Fixpoint escape (quote : ascii) (s : string) : string :=
  match s with
  | EmptyString => EmptyString
  | String c t => escape_char quote c ++ escape quote t
  end.

Fixpoint has_char (c : ascii) (s : string) : bool :=
  match s with
  | EmptyString => false
  | String c' t => orb (Ascii.eqb c c') (has_char c t)
  end.

(** [repr(s)]: single quotes, unless the string has one and no double
    quote. *)
Definition repr_str (s : string) : string :=
  let quote :=
    if andb (has_char "'" s) (negb (has_char Str.dquote s))
    then Str.dquote else "'"%char in
  String quote (escape quote s) ++ String quote EmptyString.

Definition str_int (n : Z) : string := NilZero.string_of_int (Z.to_int n).

(** [repr(v)]. *)
Fixpoint repr (v : pyval) : string :=
  match v with
  | PNone => "None"
  | PBool true => "True"
  | PBool false => "False"
  | PInt n => str_int n
  | PStr s => repr_str s
  | PList l => "[" ++ Str.join ", " (map repr l) ++ "]"
  | PDict d =>
      "{" ++ Str.join ", "
               (map (fun kv => match kv with
                               | (k, x) => repr_str k ++ ": " ++ repr x
                               end) d)
          ++ "}"
  end.

(** [str(v)], what an f-string substitutes for [{v}]. *)
Definition str (v : pyval) : string :=
  match v with
  | PStr s => s
  | _ => repr v
  end.

End Py.

(** ** The world and the state of a run *)

Record message := { role : string; content : string }.

Inductive payload : Type :=
| EmptyQuery
| Completion (model : string) (messages : list message)
             (temperature : Q) (max_tokens : Z).

Record request := {
  url : string;
  headers : list (string * string);
  payload_of : payload }.

(** What the program reads of a response: [response.status_code] and the
    outcome of [response.json()]. *)
Record response := {
  status_code : Z;
  json : result pyval }.

(** A message handed to Slack, through [respond] or
    [client.chat_postMessage]. *)
Inductive sent : Type :=
| Respond (text response_type : string)
| PostMessage (channel text : string).

Record World := {
  (** [requests.post]: the answer to the n-th request of the run, or the
      exception the transport raises. *)
  http_post : nat -> request -> result response;
  (** [time.strftime("%Y-%m-%d %H:%M:%S")]. *)
  strftime : string;
  (** [GoogleDocsFormatter.create_pitch_plan_document], the document
      backend: an opaque collaborator that returns any value or raises. *)
  create_pitch_plan_document : dict -> list string -> result pyval;
  (** [str(e)]. *)
  exc_str : exn -> string;
  (** [str.lower] and [str.strip], as the interpreter has them. *)
  str_lower : string -> string;
  str_strip : string -> string }.

Record state := {
  calls : list request;
  outbox : list sent }.

Definition initial : state := {| calls := []; outbox := [] |}.

(** A computation that reads the world, updates the state and returns or
    raises; the state survives an exception. *)
Definition M (A : Type) : Type := World -> state -> result A * state.

Definition ret {A} (a : A) : M A := fun _ st => (Ok a, st).

Definition bind {A B} (c : M A) (k : A -> M B) : M B :=
  fun w st =>
    match c w st with
    | (Ok a, st') => k a w st'
    | (Raise e, st') => (Raise e, st')
    end.

Definition lift {A} (r : result A) : M A := fun _ st => (r, st).

(** [try: body / except Exception as e: handler(e)]. *)
Definition try_except {A} (body : M A) (handler : exn -> M A) : M A :=
  fun w st =>
    match body w st with
    | (Ok a, st') => (Ok a, st')
    | (Raise e, st') => handler e w st'
    end.

Declare Scope m_scope.
Delimit Scope m_scope with m.
Notation "x <- c ;; k" := (bind c (fun x => k))
  (at level 61, c at next level, right associativity) : m_scope.
Notation "c ;;; k" := (bind c (fun _ => k))
  (at level 61, right associativity) : m_scope.

(** [requests.post(url, headers=..., json=...)]. *)
Definition requests_post (r : request) : M response :=
  fun w st =>
    (http_post w (length (calls st)) r,
     {| calls := calls st ++ [r]; outbox := outbox st |}).

Definition send (m : sent) : M unit :=
  fun _ st => (Ok tt, {| calls := calls st; outbox := outbox st ++ [m] |}).

(** [client.chat_postMessage(channel=..., text=...)]: delivery is
    fire-and-forget, a failure of the sink is not reported back. *)
Definition chat_postMessage (channel text : string) : M unit :=
  send (PostMessage channel text).

(** [respond({"text": ..., "response_type": ...})]. *)
Definition respond (text response_type : string) : M unit :=
  send (Respond text response_type).

Definition get_world : M World := fun w st => (Ok w, st).

(** [[f(x) for x in l]]. *)
Fixpoint rmap {A B} (f : A -> result B) (l : list A) : result (list B) :=
  match l with
  | [] => Ok []
  | x :: rest =>
      (y <- f x ;;
       ys <- rmap f rest ;;
       Ok (y :: ys))%res
  end.

(** ** notion_extractor.py *)

Module Notion.

Record NotionPitchExtractor := { token : string }.

Definition base_url : string := "https://api.notion.com/v1".

Definition self_headers (self : NotionPitchExtractor) : list (string * string) :=
  [ ("Authorization", "Bearer " ++ token self);
    ("Content-Type", "application/json");
    ("Notion-Version", "2022-06-28") ].

Definition extract_title (prop : pyval) : result pyval :=
  (ty <- Py.get prop "type" PNone ;;
   if Py.eq_str ty "title" then
     title_array <- Py.get prop "title" (PList []) ;;
     if Py.truthy title_array then
       first <- Py.item0 title_array ;;
       text <- Py.get first "text" (PDict []) ;;
       Py.get text "content" (PStr EmptyString)
     else Ok (PStr EmptyString)
   else Ok (PStr EmptyString))%res.

Definition extract_rich_text (prop : pyval) : result pyval :=
  (ty <- Py.get prop "type" PNone ;;
   if Py.eq_str ty "rich_text" then
     rich_text_array <- Py.get prop "rich_text" (PList []) ;;
     items <- Py.iter rich_text_array ;;
     parts <- rmap (fun rt => text <- Py.get rt "text" (PDict []) ;;
                              Py.get text "content" (PStr EmptyString)) items ;;
     Py.join " " parts
   else Ok (PStr EmptyString))%res.

Definition extract_select (prop : pyval) : result pyval :=
  (ty <- Py.get prop "type" PNone ;;
   if Py.eq_str ty "select" then
     select_obj <- Py.get prop "select" PNone ;;
     if Py.truthy select_obj
     then Py.get select_obj "name" (PStr EmptyString)
     else Ok (PStr EmptyString)
   else Ok (PStr EmptyString))%res.

Definition extract_multi_select (prop : pyval) : result pyval :=
  (ty <- Py.get prop "type" PNone ;;
   if Py.eq_str ty "multi_select" then
     multi_select_array <- Py.get prop "multi_select" (PList []) ;;
     items <- Py.iter multi_select_array ;;
     names <- rmap (fun ms => Py.get ms "name" (PStr EmptyString)) items ;;
     Ok (PList names)
   else Ok (PList []))%res.

Definition extract_url (prop : pyval) : result pyval :=
  (ty <- Py.get prop "type" PNone ;;
   if Py.eq_str ty "url"
   then Py.get prop "url" (PStr EmptyString)
   else Ok (PStr EmptyString))%res.

(** One field of [parse_client_page]:
    [self.extract_x(properties.get(name, {}))]. *)
Definition field (extract : pyval -> result pyval) (properties : pyval)
    (name : string) : result pyval :=
  (prop <- Py.get properties name (PDict []) ;;
   extract prop)%res.

Definition parse_client_page (page : pyval) : result dict :=
  (properties <- Py.get page "properties" (PDict []) ;;
   client_name <- field extract_title properties "Name" ;;
   status <- field extract_select properties "Status" ;;
   services <- field extract_multi_select properties "Services" ;;
   category <- field extract_select properties "Category" ;;
   qualification_call <- field extract_url properties "Qualification Call" ;;
   discovery_call <- field extract_url properties "Discovery Call" ;;
   discovery_notes <- field extract_url properties "Discovery Notes" ;;
   pitch_strategy <- field extract_url properties "Pitch Strategy" ;;
   pitch_deck <- field extract_url properties "Pitch" ;;
   so_owner <- field extract_rich_text properties "SO" ;;
   sales_owner <- field extract_rich_text properties "Sales" ;;
   Ok [ ("client_name", client_name);
        ("status", status);
        ("services", services);
        ("category", category);
        ("qualification_call", qualification_call);
        ("discovery_call", discovery_call);
        ("discovery_notes", discovery_notes);
        ("pitch_strategy", pitch_strategy);
        ("pitch_deck", pitch_deck);
        ("so_owner", so_owner);
        ("sales_owner", sales_owner) ])%res.

(** The title the loop of [find_client_page] reads off one result. *)
Definition result_title (res : pyval) : result pyval :=
  (properties <- Py.get res "properties" (PDict []) ;;
   name <- Py.get properties "Name" (PDict []) ;;
   extract_title name)%res.

(** The loop of [find_client_page]; falling off its end is
    [return None]. *)
Fixpoint search (py_lower : string -> string) (client_name : string)
    (results : list pyval) : result pyval :=
  match results with
  | [] => Ok PNone
  | res :: rest =>
      (title <- result_title res ;;
       lowered <- Py.lower py_lower title ;;
       if Str.str_in (Str.lower py_lower client_name) lowered
       then Ok res
       else search py_lower client_name rest)%res
  end.

Definition find_client_page (self : NotionPitchExtractor)
    (database_id client_name : string) : M pyval :=
  (let query_url := base_url ++ "/databases/" ++ database_id ++ "/query" in
   response <- requests_post {| url := query_url;
                                headers := self_headers self;
                                payload_of := EmptyQuery |} ;;
   if status_code response =? 200 then
     w <- get_world ;;
     lift (body <- json response ;;
           results <- Py.get body "results" (PList []) ;;
           items <- Py.iter results ;;
           search (str_lower w) client_name items)%res
   else ret PNone)%m.

Definition not_found (client_name : string) : dict :=
  [ ("error", PStr ("Client '" ++ client_name ++ "' not found")) ].

Definition extract_client_data (self : NotionPitchExtractor)
    (database_id client_name : string) : M dict :=
  (client_page <- find_client_page self database_id client_name ;;
   if negb (Py.truthy client_page) then ret (not_found client_name)
   else lift (parse_client_page client_page))%m.

End Notion.

(** ** llm_pipeline.py *)

Module Pipeline.

Record PitchPlanGenerator := {
  openai_api_key : string;
  anthropic_api_key : string }.

Definition openai_url : string := "https://api.openai.com/v1/chat/completions".
Definition anthropic_url : string := "https://api.anthropic.com/v1/messages".

(** [response.json()["choices"][0]["message"]["content"]]. *)
Definition openai_text (response : response) : result pyval :=
  (body <- json response ;;
   choices <- Py.item body "choices" ;;
   choice <- Py.item0 choices ;;
   msg <- Py.item choice "message" ;;
   Py.item msg "content")%res.

(** [response.json()["content"][0]["text"]]. *)
Definition anthropic_text (response : response) : result pyval :=
  (body <- json response ;;
   blocks <- Py.item body "content" ;;
   block <- Py.item0 blocks ;;
   Py.item block "text")%res.

Definition openai_request (self : PitchPlanGenerator) (messages : list message)
    (model : string) (temperature : Q) (max_tokens : Z) : request :=
  {| url := openai_url;
     headers := [ ("Authorization", "Bearer " ++ openai_api_key self);
                  ("Content-Type", "application/json") ];
     payload_of := Completion model messages temperature max_tokens |}.

Definition openai_chat_completion (self : PitchPlanGenerator)
    (messages : list message) (model : string) (temperature : Q)
    (max_tokens : Z) : M pyval :=
  (response <- requests_post
                 (openai_request self messages model temperature max_tokens) ;;
   if status_code response =? 200
   then lift (openai_text response)
   else ret PNone)%m.

Definition anthropic_request (self : PitchPlanGenerator) (prompt : string)
    (model : string) (max_tokens : Z) (temperature : Q) : request :=
  {| url := anthropic_url;
     headers := [ ("x-api-key", anthropic_api_key self);
                  ("Content-Type", "application/json");
                  ("anthropic-version", "2023-06-01") ];
     payload_of := Completion model [ {| role := "user"; content := prompt |} ]
                              temperature max_tokens |}.

Definition anthropic_completion (self : PitchPlanGenerator) (prompt : string)
    (model : string) (max_tokens : Z) (temperature : Q) : M pyval :=
  (response <- requests_post
                 (anthropic_request self prompt model max_tokens temperature) ;;
   if status_code response =? 200
   then lift (anthropic_text response)
   else ret PNone)%m.

Definition format_client_info (client_data : dict) : string :=
  "
CLIENT NAME: "
  ++ Py.str (Py.dget client_data "client_name" (PStr "Unknown"))
  ++ "
STATUS: "
  ++ Py.str (Py.dget client_data "status" (PStr "Unknown"))
  ++ "
CATEGORY: "
  ++ Py.str (Py.dget client_data "category" (PStr "Unknown"))
  ++ "
SERVICES NEEDED: "
  ++ Py.str (Py.dget client_data "services" (PStr "Unknown"))
  ++ "
ACCOUNT OWNER: "
  ++ Py.str (Py.dget client_data "so_owner" (PStr "Unknown"))
  ++ "
SALES OWNER: "
  ++ Py.str (Py.dget client_data "sales_owner" (PStr "Unknown"))
  ++ "

AVAILABLE DATA SOURCES:
- Qualification Call: "
  ++ Py.str (Py.dget client_data "qualification_call" (PStr "N/A"))
  ++ "
- Discovery Call: "
  ++ Py.str (Py.dget client_data "discovery_call" (PStr "N/A"))
  ++ "
- Discovery Notes: "
  ++ Py.str (Py.dget client_data "discovery_notes" (PStr "N/A"))
  ++ "
- Pitch Strategy: "
  ++ Py.str (Py.dget client_data "pitch_strategy" (PStr "N/A"))
  ++ "
".

Definition strategic_prompt (client_data : dict) : string :=
  let client_info := format_client_info client_data in
  "ROLE: Senior Strategy Consultant analyzing B2B agency pitch opportunity

CLIENT INTELLIGENCE:
"
  ++ client_info
  ++ "

TASK: Create comprehensive strategic foundation for pitch development with these exact sections:

1. STRATEGIC OBJECTIVES
   - 3-5 SMART goals aligned with client's stated needs
   - Connect their business ambitions to measurable outcomes

2. KEY CHALLENGES  
   - Top 5 prioritized obstacles with impact assessment
   - Focus on gaps between their ambitions and current state

3. CAPABILITY GAPS
   - Creative gaps (brand, messaging, content needs)
   - Media gaps (channel optimization, targeting, measurement)
   - Process gaps (operations, tech, integration needs)
   - For each gap, provide specific solution pathway

4. COMPETITIVE CONTEXT
   - Market positioning opportunities
   - How to differentiate our approach

5. NARRATIVE HOOKS
   - Key story elements for compelling pitch narrative
   - Specific client pain points that create urgency

OUTPUT: Well-structured analysis with clear section headers, client-specific insights.".

Definition strategic_system : string :=
  "You are a senior strategy consultant specializing in B2B agency pitch development.".

Definition strategic_messages (client_data : dict) : list message :=
  [ {| role := "system"; content := strategic_system |};
    {| role := "user"; content := strategic_prompt client_data |} ].

Definition strategic_analysis (self : PitchPlanGenerator) (client_data : dict)
    : M pyval :=
  openai_chat_completion self (strategic_messages client_data)
    "gpt-4" (1 # 10)%Q 2500.

Definition narrative_prompt (strategic_foundation : pyval) (client_data : dict)
    : string :=
  let client_name := Py.dget client_data "client_name" (PStr "the client") in
  "Transform this strategic analysis into a powerful narrative using SITUATION → FRICTION → SOLUTION framework.

STRATEGIC FOUNDATION:
"
  ++ Py.str strategic_foundation
  ++ "

CLIENT: "
  ++ Py.str client_name
  ++ "

Create exactly 3 paragraphs:

SITUATION (Paragraph 1): Acknowledge "
  ++ Py.str client_name
  ++ "'s current position and ambitious goals
FRICTION (Paragraph 2): Identify the gap between their ambitions and current capabilities  
SOLUTION (Paragraph 3): Position our agency as the partner that delivers the new operating model they need

REQUIREMENTS:
- Use "
  ++ Py.str client_name
  ++ " specifically throughout
- Reference specific details from the strategic foundation
- Consultative confidence without overselling
- 150-200 words each paragraph".

Definition narrative_development (self : PitchPlanGenerator)
    (strategic_foundation : pyval) (client_data : dict) : M pyval :=
  anthropic_completion self (narrative_prompt strategic_foundation client_data)
    "claude-3-5-sonnet-20241022" 1500 (3 # 10)%Q.

Definition plan_prompt (strategic_foundation narrative : pyval)
    (client_data : dict) : string :=
  let client_name := Py.dget client_data "client_name" (PStr "Client") in
  "Create comprehensive pitch plan integrating strategic analysis with compelling narrative.

STRATEGIC FOUNDATION:
"
  ++ Py.str strategic_foundation
  ++ "

NARRATIVE:
"
  ++ Py.str narrative
  ++ "

CLIENT: "
  ++ Py.str client_name
  ++ "

Create a complete pitch plan with these sections:

1. EXECUTIVE SUMMARY
2. STRATEGIC FOUNDATION  
3. PROPOSED APPROACH
4. CAPABILITY DEMONSTRATION
5. INVESTMENT & NEXT STEPS

REQUIREMENTS:
- Strategic insights woven throughout
- Narrative elements enhance each section
- Client-specific customization
- 2000-3000 words total
- Professional formatting".

Definition plan_system : string :=
  "You are a pitch plan specialist who creates execution-ready strategic documents.".

Definition plan_messages (strategic_foundation narrative : pyval)
    (client_data : dict) : list message :=
  [ {| role := "system"; content := plan_system |};
    {| role := "user";
       content := plan_prompt strategic_foundation narrative client_data |} ].

Definition plan_integration (self : PitchPlanGenerator)
    (strategic_foundation narrative : pyval) (client_data : dict) : M pyval :=
  openai_chat_completion self
    (plan_messages strategic_foundation narrative client_data)
    "gpt-4" (1 # 10)%Q 4000.

Inductive stage : Type := StrategicAnalysis | NarrativeDevelopment | PlanIntegration.

(** The failure value of a stage. *)
Definition failure (s : stage) : dict :=
  [ ("error",
     PStr match s with
          | StrategicAnalysis => "Failed at strategic analysis step"
          | NarrativeDevelopment => "Failed at narrative development step"
          | PlanIntegration => "Failed at plan integration step"
          end) ].

(** The dictionary returned on success. *)
Definition bundle (client_data : dict)
    (strategic_foundation narrative final_plan : pyval) (generated_at : string)
    : dict :=
  [ ("client_name", Py.dget client_data "client_name" PNone);
    ("strategic_foundation", strategic_foundation);
    ("narrative", narrative);
    ("final_plan", final_plan);
    ("generated_at", PStr generated_at) ].

Definition generate_pitch_plan (self : PitchPlanGenerator) (client_data : dict)
    : M dict :=
  (strategic_foundation <- strategic_analysis self client_data ;;
   if negb (Py.truthy strategic_foundation) then ret (failure StrategicAnalysis)
   else
     narrative <- narrative_development self strategic_foundation client_data ;;
     if negb (Py.truthy narrative) then ret (failure NarrativeDevelopment)
     else
       final_plan <- plan_integration self strategic_foundation narrative
                       client_data ;;
       if negb (Py.truthy final_plan) then ret (failure PlanIntegration)
       else
         w <- get_world ;;
         ret (bundle client_data strategic_foundation narrative final_plan
                (strftime w)))%m.

End Pipeline.

(** ** slack_bot.py *)

Module Bot.

Record SlackPitchBot := {
  notion_database_id : string;
  team_emails : list string;
  notion_extractor : Notion.NotionPitchExtractor;
  llm_generator : Pipeline.PitchPlanGenerator }.

Definition step1_text (client_name : string) : string :=
  "📊 **Step 1/4:** Extracting client data for " ++ client_name
  ++ " from Notion...".

Definition not_found_text (client_name : string) : string :=
  "❌ **Client not found:** Could not find '" ++ client_name
  ++ "' in Notion.".

Definition step2_text : string :=
  "🧠 **Step 2/4:** Generating strategic analysis and narrative...".

Definition generation_failed_text (error : pyval) : string :=
  "❌ **Generation failed:** " ++ Py.str error.

Definition step3_text : string :=
  "📄 **Step 3/4:** Creating formatted Google Doc...".

Definition document_failed_text : string := "❌ **Document creation failed**".

Definition success_message (self : SlackPitchBot) (client_name : string)
    (document_url : pyval) (pitch_plan_data : dict) : string :=
  "✅ **Pitch Plan Complete - " ++ client_name ++ "**" ++ Str.nl ++ Str.nl
  ++ "🎯 Strategic pitch plan ready for team review" ++ Str.nl
  ++ "📄 **Document:** " ++ Py.str document_url ++ Str.nl
  ++ "📧 **Shared with:** " ++ Str.join ", " (team_emails self) ++ Str.nl
  ++ "⏱️ **Generated:** "
  ++ Py.str (Py.dget pitch_plan_data "generated_at" (PStr "Now")).

Definition system_error_text (shown : string) : string :=
  "❌ **System Error:** " ++ shown.

(** The body of the [try] of [process_pitch_plan]. *)
Definition process_body (self : SlackPitchBot)
    (client_name channel_id user_id : string) : M unit :=
  (chat_postMessage channel_id (step1_text client_name) ;;;
   client_data <- Notion.extract_client_data (notion_extractor self)
                    (notion_database_id self) client_name ;;
   if Py.has_key "error" client_data then
     chat_postMessage channel_id (not_found_text client_name)
   else
     chat_postMessage channel_id step2_text ;;;
     pitch_plan_data <- Pipeline.generate_pitch_plan (llm_generator self)
                          client_data ;;
     if Py.has_key "error" pitch_plan_data then
       error <- lift (Py.item (PDict pitch_plan_data) "error") ;;
       chat_postMessage channel_id (generation_failed_text error)
     else
       chat_postMessage channel_id step3_text ;;;
       w <- get_world ;;
       document_url <- lift (create_pitch_plan_document w pitch_plan_data
                               (team_emails self)) ;;
       if negb (Py.truthy document_url) then
         chat_postMessage channel_id document_failed_text
       else
         chat_postMessage channel_id
           (success_message self client_name document_url pitch_plan_data))%m.

Definition process_pitch_plan (self : SlackPitchBot)
    (client_name channel_id user_id : string) : M unit :=
  try_except (process_body self client_name channel_id user_id)
    (fun e =>
       (w <- get_world ;;
        chat_postMessage channel_id (system_error_text (exc_str w e)))%m).

Definition usage_text : string :=
  "❌ Please specify a client name: `/start-pitch ClientName`".

Definition starting_text (client_name : string) : string :=
  "🚀 Starting pitch plan for **" ++ client_name ++ "**..." ++ Str.nl
  ++ "⏱️ This will take 5-10 minutes. I'll update you as I progress.".

(** [handle_start_pitch] on a command with the given [text], [channel_id]
    and [user_id].  [ack()] answers the HTTP request and posts nothing.
    The worker thread is started after the reply and runs
    [process_pitch_plan]; the run of that one job is sequenced here. *)
Definition handle_start_pitch (self : SlackPitchBot)
    (text channel_id user_id : string) : M unit :=
  (w <- get_world ;;
   let client_name := str_strip w text in
   if negb (Str.nonempty client_name) then respond usage_text "ephemeral"
   else
     respond (starting_text client_name) "in_channel" ;;;
     process_pitch_plan self client_name channel_id user_id)%m.

(** *** The notifications of the job state machine *)

Inductive phase : Type :=
| RECEIVED | EXTRACTING | GENERATING | PUBLISHING | DONE | FAILED.

Definition text_of (m : sent) : string :=
  match m with
  | Respond text _ => text
  | PostMessage _ text => text
  end.

(** A message is recognised by the fixed heading it starts with. *)
Definition phase_of (m : sent) : option phase :=
  let t := text_of m in
  if String.prefix "🚀 Starting pitch plan for" t then Some RECEIVED
  else if String.prefix "📊 **Step 1/4:**" t then Some EXTRACTING
  else if String.prefix "🧠 **Step 2/4:**" t then Some GENERATING
  else if String.prefix "📄 **Step 3/4:**" t then Some PUBLISHING
  else if String.prefix "✅ **Pitch Plan Complete" t then Some DONE
  else if String.prefix "❌" t then Some FAILED
  else None.

Definition success_path : list phase :=
  [RECEIVED; EXTRACTING; GENERATING; PUBLISHING; DONE].

End Bot.

(** * Vocabulary of the properties *)

Section Vocabulary.

Import Str Notion Pipeline Bot.

(** ** Requests, logs and messages *)

(** The text of the user message of a request. *)
Definition user_prompt (r : request) : option string :=
  match payload_of r with
  | Completion _ messages _ _ =>
      match List.find (fun m => String.eqb (role m) "user") messages with
      | Some m => Some (content m)
      | None => None
      end
  | EmptyQuery => None
  end.

(** The text of the system message of a request. *)
Definition system_prompt (r : request) : option string :=
  match payload_of r with
  | Completion _ messages _ _ =>
      match List.find (fun m => String.eqb (role m) "system") messages with
      | Some m => Some (content m)
      | None => None
      end
  | EmptyQuery => None
  end.

(** The state after one more request. *)
Definition logged (st : state) (r : request) : state :=
  {| calls := calls st ++ [r]; outbox := outbox st |}.

(** The state after one more message. *)
Definition posting (st : state) (m : sent) : state :=
  {| calls := calls st; outbox := outbox st ++ [m] |}.

(** The requests made since [st]. *)
Definition new_calls (st st' : state) : list request :=
  skipn (List.length (calls st)) (calls st').

(** The messages sent since [st]. *)
Definition new_messages (st st' : state) : list sent :=
  skipn (List.length (outbox st)) (outbox st').


(** What an adapter makes of the outcome of its request. *)
Definition adapter_result (text : response -> result pyval)
    (r : result response) : result pyval :=
  match r with
  | Ok resp => if status_code resp =? 200 then text resp else Ok PNone
  | Raise e => Raise e
  end.

(** ** The stage calls of one run *)

Section Runs.

Variable self : PitchPlanGenerator.
Variable client_data : dict.
Variable w : World.
Variable st : state.

(** The requests of the three stages. *)
Definition strategic_request : request :=
  openai_request self (strategic_messages client_data) "gpt-4" (1 # 10)%Q 2500.

Definition narrative_request (v1 : pyval) : request :=
  anthropic_request self (narrative_prompt v1 client_data)
    "claude-3-5-sonnet-20241022" 1500 (3 # 10)%Q.

Definition plan_request (v1 v2 : pyval) : request :=
  openai_request self (plan_messages v1 v2 client_data) "gpt-4" (1 # 10)%Q 4000.

(** The three stage calls of one run, each started in the state the
    previous one left. *)
Definition run1 : result pyval * state := strategic_analysis self client_data w st.

Definition run2 (v1 : pyval) : result pyval * state :=
  narrative_development self v1 client_data w (snd run1).

Definition run3 (v1 v2 : pyval) : result pyval * state :=
  plan_integration self v1 v2 client_data w (snd (run2 v1)).

(** A stage call produced the text [v]. *)
Definition produced (r : result pyval * state) (v : pyval) : Prop :=
  fst r = Ok v /\ Py.truthy v = true.

(** A stage call failed: it returned [None] or another false value, or
    it raised. *)
Definition failed (r : result pyval * state) : Prop :=
  match fst r with
  | Ok v => Py.truthy v = false
  | Raise _ => True
  end.

(** [s] is the earliest stage whose call failed, and [r] is that call. *)
Inductive earliest_failure : stage -> result pyval * state -> Prop :=
| fails_first :
    failed run1 -> earliest_failure StrategicAnalysis run1
| fails_second v1 :
    produced run1 v1 -> failed (run2 v1) ->
    earliest_failure NarrativeDevelopment (run2 v1)
| fails_third v1 v2 :
    produced run1 v1 -> produced (run2 v1) v2 -> failed (run3 v1 v2) ->
    earliest_failure PlanIntegration (run3 v1 v2).

(** What the orchestrator makes of a failed stage call. *)
Definition reported (s : stage) (r : result pyval * state) : result dict * state :=
  match fst r with
  | Ok _ => (Ok (failure s), snd r)
  | Raise e => (Raise e, snd r)
  end.

End Runs.

(** The requests of a stage: stage 2 is the only one to call the
    single-prompt backend, stages 1 and 3 call the chat backend under
    their own system message. *)
Definition issued_by (s : stage) (r : request) : bool :=
  match s with
  | StrategicAnalysis =>
      String.eqb (url r) openai_url &&
      match system_prompt r with
      | Some t => String.eqb t strategic_system
      | None => false
      end
  | NarrativeDevelopment => String.eqb (url r) anthropic_url
  | PlanIntegration =>
      String.eqb (url r) openai_url &&
      match system_prompt r with
      | Some t => String.eqb t plan_system
      | None => false
      end
  end.

(** The number of adapter calls made for a stage. *)
Definition calls_of (s : stage) (log : list request) : nat :=
  List.length (List.filter (issued_by s) log).

Definition stage_output_keys : list string :=
  ["strategic_foundation"; "narrative"; "final_plan"].


(** ** Extraction *)

Definition query_request (self : NotionPitchExtractor) (database_id : string)
    : request :=
  {| url := base_url ++ "/databases/" ++ database_id ++ "/query";
     headers := self_headers self;
     payload_of := EmptyQuery |}.

(** What [find_client_page] makes of the outcome of its query. *)
Definition found (w : World) (client_name : string) (r : result response)
    : result pyval :=
  match r with
  | Ok resp =>
      if status_code resp =? 200 then
        (body <- json resp ;;
         results <- Py.get body "results" (PList []) ;;
         items <- Py.iter results ;;
         search (str_lower w) client_name items)%res
      else Ok PNone
  | Raise e => Raise e
  end.

(** The page has a name, and the name holds the query when case is
    ignored, that is, once both are lowered by [str.lower]. *)
Definition Matches (py_lower : string -> string) (query : string)
    (page : pyval) : Prop :=
  exists name,
    result_title page = Ok (PStr name) /\
    Contains (lower py_lower name) (lower py_lower query).

(** The page has a title that is a text. *)
Definition Titled (page : pyval) : Prop :=
  exists name, result_title page = Ok (PStr name).

(** The fields of a client record, in the order of the dictionary. *)
Definition record_fields : list string :=
  [ "client_name"; "status"; "services"; "category"; "qualification_call";
    "discovery_call"; "discovery_notes"; "pitch_strategy"; "pitch_deck";
    "so_owner"; "sales_owner" ].

(** Each field with the Notion property it is read from, and the value it
    takes when the page has no such property. *)
Definition field_table : list (string * string * pyval) :=
  [ ("client_name", "Name", PStr EmptyString);
    ("status", "Status", PStr EmptyString);
    ("services", "Services", PList []);
    ("category", "Category", PStr EmptyString);
    ("qualification_call", "Qualification Call", PStr EmptyString);
    ("discovery_call", "Discovery Call", PStr EmptyString);
    ("discovery_notes", "Discovery Notes", PStr EmptyString);
    ("pitch_strategy", "Pitch Strategy", PStr EmptyString);
    ("pitch_deck", "Pitch", PStr EmptyString);
    ("so_owner", "SO", PStr EmptyString);
    ("sales_owner", "Sales", PStr EmptyString) ].

(** ** The job runner *)

(** The state in which [process_pitch_plan] ends, by the outcomes of
    extraction, generation and publication. *)
Definition job_end (self : SlackPitchBot) (client_name channel_id : string)
    (w : World) (st : state) : state :=
  let say s text := posting s (PostMessage channel_id text) in
  let fault s e := say s (system_error_text (exc_str w e)) in
  match Notion.extract_client_data (notion_extractor self)
          (notion_database_id self) client_name w
          (say st (step1_text client_name)) with
  | (Raise e, s1) => fault s1 e
  | (Ok client_data, s1) =>
      if Py.has_key "error" client_data
      then say s1 (not_found_text client_name)
      else
        match Pipeline.generate_pitch_plan (llm_generator self) client_data w
                (say s1 step2_text) with
        | (Raise e, s2) => fault s2 e
        | (Ok pitch_plan_data, s2) =>
            if Py.has_key "error" pitch_plan_data then
              match Py.item (PDict pitch_plan_data) "error" with
              | Ok error => say s2 (generation_failed_text error)
              | Raise e => fault s2 e
              end
            else
              match create_pitch_plan_document w pitch_plan_data
                      (team_emails self) with
              | Raise e => fault (say s2 step3_text) e
              | Ok document_url =>
                  if Py.truthy document_url
                  then say (say s2 step3_text)
                         (success_message self client_name document_url
                            pitch_plan_data)
                  else say (say s2 step3_text) document_failed_text
              end
        end
  end.


(** ** Sample collaborators and data *)

(** The data of the samples is in ASCII, and the sample worlds lower and
    strip as the interpreter does on such text. *)

Definition demo_generator : PitchPlanGenerator :=
  {| openai_api_key := "sk-openai"; anthropic_api_key := "sk-anthropic" |}.

Definition demo_extractor : NotionPitchExtractor := {| token := "secret_notion" |}.

Definition demo_bot : SlackPitchBot :=
  {| notion_database_id := "db1";
     team_emails := ["sales@nest.example"; "strategy@nest.example"];
     notion_extractor := demo_extractor;
     llm_generator := demo_generator |}.

(** The body of a chat completion whose text is [text]. *)
Definition chat_body (text : pyval) : pyval :=
  PDict [ ("choices", PList [ PDict [ ("message",
            PDict [ ("role", PStr "assistant"); ("content", text) ]) ] ]) ].

(** The body of a single-prompt completion whose text is [text]. *)
Definition messages_body (text : pyval) : pyval :=
  PDict [ ("content", PList [ PDict [ ("type", PStr "text"); ("text", text) ] ]) ].

(** A Notion property of each kind the extractor reads. *)
Definition title_prop (text : string) : pyval :=
  PDict [ ("id", PStr "title"); ("type", PStr "title");
          ("title", PList [ PDict [ ("type", PStr "text");
                                    ("text", PDict [ ("content", PStr text) ]) ] ]) ].

Definition select_prop (name : string) : pyval :=
  PDict [ ("type", PStr "select"); ("select", PDict [ ("name", PStr name) ]) ].

Definition multi_select_prop (names : list string) : pyval :=
  PDict [ ("type", PStr "multi_select");
          ("multi_select",
           PList (map (fun n => PDict [ ("name", PStr n) ]) names)) ].

Definition url_prop (u : pyval) : pyval :=
  PDict [ ("type", PStr "url"); ("url", u) ].

Definition rich_text_prop (parts : list string) : pyval :=
  PDict [ ("type", PStr "rich_text");
          ("rich_text",
           PList (map (fun t => PDict [ ("text", PDict [ ("content", PStr t) ]) ])
                      parts)) ].

Definition page_of (properties : dict) : pyval :=
  PDict [ ("object", PStr "page"); ("properties", PDict properties) ].

Definition acme_deck : string := "https://decks.example.com/acme-2024".

Definition acme_page : pyval :=
  page_of [ ("Name", title_prop "Acme Corp");
            ("Status", select_prop "Active");
            ("Services", multi_select_prop ["Media"; "Creative"]);
            ("Category", select_prop "Retail");
            ("Qualification Call", url_prop (PStr "https://calls.example.com/q1"));
            ("Discovery Call", url_prop PNone);
            ("Pitch", url_prop (PStr acme_deck));
            ("SO", rich_text_prop ["Dana"; "Lee"]) ].

Definition acme_record : dict :=
  [ ("client_name", PStr "Acme Corp");
    ("status", PStr "Active");
    ("services", PList [PStr "Media"; PStr "Creative"]);
    ("category", PStr "Retail");
    ("qualification_call", PStr "https://calls.example.com/q1");
    ("discovery_call", PNone);
    ("discovery_notes", PStr EmptyString);
    ("pitch_strategy", PStr EmptyString);
    ("pitch_deck", PStr acme_deck);
    ("so_owner", PStr "Dana Lee");
    ("sales_owner", PStr EmptyString) ].

Definition acme_min_record : dict := [ ("client_name", PStr "Acme") ].

Definition acme_s1 : string := "1. STRATEGIC OBJECTIVES: grow pipeline".

Definition acme_s2 : string := "SITUATION: Acme leads its region.".

Definition globex_page : pyval :=
  page_of [ ("Name", title_prop "Globex"); ("Status", select_prop "Lead") ].

Definition acme_labs_page : pyval :=
  page_of [ ("Name", title_prop "ACME Labs") ].

Definition bare_page : pyval := page_of [ ("Name", title_prop "Acme Corp") ].

Definition bare_record : dict :=
  [ ("client_name", PStr "Acme Corp");
    ("status", PStr EmptyString);
    ("services", PList []);
    ("category", PStr EmptyString);
    ("qualification_call", PStr EmptyString);
    ("discovery_call", PStr EmptyString);
    ("discovery_notes", PStr EmptyString);
    ("pitch_strategy", PStr EmptyString);
    ("pitch_deck", PStr EmptyString);
    ("so_owner", PStr EmptyString);
    ("sales_owner", PStr EmptyString) ].

(** A backend that answers every request with status 200 and the body
    [{}]. *)
Definition empty_body_world : World :=
  {| http_post := fun _ _ => Ok {| status_code := 200; json := Ok (PDict []) |};
     strftime := "2024-05-01 12:00:00";
     create_pitch_plan_document := fun _ _ => Ok PNone;
     exc_str := fun _ => "error";
     str_lower := Str.ascii_lower;
     str_strip := Str.ascii_strip |}.

(** A backend that answers every request with status 503. *)
Definition unavailable_world : World :=
  {| http_post := fun _ _ => Ok {| status_code := 503; json := Raise JSONDecodeError |};
     strftime := "2024-05-01 12:00:00";
     create_pitch_plan_document := fun _ _ => Ok PNone;
     exc_str := fun _ => "error";
     str_lower := Str.ascii_lower;
     str_strip := Str.ascii_strip |}.

(** A backend whose chat completions all carry the empty text. *)
Definition empty_text_world : World :=
  {| http_post := fun _ _ =>
       Ok {| status_code := 200; json := Ok (chat_body (PStr EmptyString)) |};
     strftime := "2024-05-01 12:00:00";
     create_pitch_plan_document := fun _ _ => Ok PNone;
     exc_str := fun _ => "error";
     str_lower := Str.ascii_lower;
     str_strip := Str.ascii_strip |}.

(** A workspace that answers every query with the given pages. *)
Definition workspace (pages : list pyval) : World :=
  {| http_post := fun _ _ =>
       Ok {| status_code := 200;
             json := Ok (PDict [ ("object", PStr "list");
                                 ("results", PList pages) ]) |};
     strftime := "2024-05-01 12:00:00";
     create_pitch_plan_document := fun _ _ => Ok PNone;
     exc_str := fun _ => "error";
     str_lower := Str.ascii_lower;
     str_strip := Str.ascii_strip |}.

(** A world in which every collaborator succeeds. *)
Definition happy_world : World :=
  {| http_post := fun _ r =>
       if String.eqb (url r) Pipeline.openai_url
       then Ok {| status_code := 200;
                  json := Ok (chat_body (PStr "analysis and plan")) |}
       else if String.eqb (url r) Pipeline.anthropic_url
       then Ok {| status_code := 200;
                  json := Ok (messages_body (PStr "three paragraphs")) |}
       else Ok {| status_code := 200;
                  json := Ok (PDict [ ("results",
                                       PList [globex_page; acme_page]) ]) |};
     strftime := "2024-05-01 12:00:00";
     create_pitch_plan_document := fun _ _ =>
       Ok (PStr "https://docs.example.com/d/1");
     exc_str := fun _ => "error";
     str_lower := Str.ascii_lower;
     str_strip := Str.ascii_strip |}.

End Vocabulary.

Arguments produced r v /.
Arguments failed r /.

(** * The rest of the program *)

(** ** slack_bot.py: start-up and the help command *)

Module Setup.

(** [s.split(sep)] for a separator of one character. *)
Fixpoint split (sep : ascii) (s : string) : list string :=
  match s with
  | EmptyString => [EmptyString]
  | String c t =>
      if Ascii.eqb c sep then EmptyString :: split sep t
      else match split sep t with
           | piece :: pieces => String c piece :: pieces
           | [] => [String c EmptyString]
           end
  end.

(** [[email.strip() for email in team_emails_str.split(',')
      if email.strip()]], given the [str.strip] of the interpreter. *)
Definition team_emails_of (py_strip : string -> string)
    (team_emails_str : string) : list string :=
  map py_strip
    (filter (fun email => Str.nonempty (py_strip email))
       (split "," team_emails_str)).

(** [os.getenv('TEAM_EMAILS', '')] and the parse of [__init__]. *)
Definition init_team_emails (py_strip : string -> string)
    (getenv : string -> option string) : list string :=
  team_emails_of py_strip match getenv "TEAM_EMAILS" with
                          | Some v => v
                          | None => EmptyString
                          end.

Definition help_text : string :=
  "🤖 **Nest Pitch Plan Automation**
**Available Commands:**
- `/start-pitch ClientName` - Generate complete pitch plan
- `/pitch-help` - Show this help message

**How it works:**
1. I extract client data from Notion
2. I generate strategic analysis using AI
3. I create compelling narrative 
4. I produce final formatted Google Doc
5. I share with the team automatically

**What I need:**
- Client must exist in Notion database
- Takes 5-10 minutes to complete
- Results shared automatically with sales team".

(** [handle_pitch_help]; [ack()] posts nothing. *)
Definition handle_pitch_help : M unit := respond help_text "ephemeral".

End Setup.

(** ** More vocabulary *)

(** A computation that neither reads nor writes the outbox: a message
    sent before it can as well be sent after it. *)
Definition Blind {A} (c : M A) : Prop :=
  forall (w : World) (st : state) (m : sent),
    c w (posting st m) = (fst (c w st), posting (snd (c w st)) m).

(** An entry of the recipient list as the parse leaves it: not empty,
    left as it is by [str.strip], that is, without white space at either
    end, and without a comma. *)
Definition clean_email (py_strip : string -> string) (e : string) : Prop :=
  e <> EmptyString /\ py_strip e = e /\ Py.has_char "," e = false.

(** What the parse of the recipient list needs of [str.strip]: stripping
    twice is stripping once, stripping adds no character, and a space in
    front is stripped. *)
Definition strips (py_strip : string -> string) : Prop :=
  (forall s, py_strip (py_strip s) = py_strip s) /\
  (forall c s, Py.has_char c s = false -> Py.has_char c (py_strip s) = false) /\
  (forall s, py_strip (" " ++ s) = py_strip s).

(** [str.lower] leaves no text empty but the empty one. *)
Definition lowers (py_lower : string -> string) : Prop :=
  forall s, s <> EmptyString -> py_lower s <> EmptyString.




(** The request goes to one of the two model providers and carries the
    headers of that provider, with its own key. *)
Definition addressed (self : Pipeline.PitchPlanGenerator) (r : request) : Prop :=
  (url r = Pipeline.openai_url /\
   headers r = [ ("Authorization", "Bearer " ++ Pipeline.openai_api_key self);
                 ("Content-Type", "application/json") ])
  \/
  (url r = Pipeline.anthropic_url /\
   headers r = [ ("x-api-key", Pipeline.anthropic_api_key self);
                 ("Content-Type", "application/json");
                 ("anthropic-version", "2023-06-01") ]).

(** The labels of [format_client_info], each with the field it shows and
    the text it shows when the record lacks the field. *)
Definition info_lines : list (string * string * string) :=
  [ ("CLIENT NAME: ", "client_name", "Unknown");
    ("STATUS: ", "status", "Unknown");
    ("CATEGORY: ", "category", "Unknown");
    ("SERVICES NEEDED: ", "services", "Unknown");
    ("ACCOUNT OWNER: ", "so_owner", "Unknown");
    ("SALES OWNER: ", "sales_owner", "Unknown");
    ("- Qualification Call: ", "qualification_call", "N/A");
    ("- Discovery Call: ", "discovery_call", "N/A");
    ("- Discovery Notes: ", "discovery_notes", "N/A");
    ("- Pitch Strategy: ", "pitch_strategy", "N/A") ].

(** A world whose transport fails on every request. *)
Definition offline_world : World :=
  {| http_post := fun _ _ => Raise (External "ConnectionError");
     strftime := "2024-05-01 12:00:00";
     create_pitch_plan_document := fun _ _ => Ok PNone;
     exc_str := fun e => match e with
                         | External what => what
                         | _ => "error"
                         end;
     str_lower := Str.ascii_lower;
     str_strip := Str.ascii_strip |}.

(** A title property in Notion's shape, one rich-text item per segment. *)
Definition segmented_title (segments : list string) : pyval :=
  PDict [ ("id", PStr "title"); ("type", PStr "title");
          ("title",
           PList (map (fun t => PDict [ ("type", PStr "text");
                                        ("text", PDict [ ("content", PStr t) ]);
                                        ("plain_text", PStr t) ])
                      segments)) ].

(** A page in Notion's shape that has all eleven properties. *)
Definition notion_page (name status : string) (services : list string)
    (category : string)
    (qualification_call discovery_call discovery_notes pitch_strategy
       pitch_deck : pyval)
    (so_owner sales_owner : list string) : pyval :=
  page_of [ ("Name", title_prop name);
            ("Status", select_prop status);
            ("Services", multi_select_prop services);
            ("Category", select_prop category);
            ("Qualification Call", url_prop qualification_call);
            ("Discovery Call", url_prop discovery_call);
            ("Discovery Notes", url_prop discovery_notes);
            ("Pitch Strategy", url_prop pitch_strategy);
            ("Pitch", url_prop pitch_deck);
            ("SO", rich_text_prop so_owner);
            ("Sales", rich_text_prop sales_owner) ].

(** The five extractors, each with the type it reads and the value it
    returns for a property of another type. *)
Definition extractors : list ((pyval -> result pyval) * string * pyval) :=
  [ (Notion.extract_title, "title", PStr EmptyString);
    (Notion.extract_rich_text, "rich_text", PStr EmptyString);
    (Notion.extract_select, "select", PStr EmptyString);
    (Notion.extract_multi_select, "multi_select", PList []);
    (Notion.extract_url, "url", PStr EmptyString) ].

(** The link fields the prompt shows, each with its Notion property and
    its label. *)
Definition link_fields : list (string * string * string) :=
  [ ("qualification_call", "Qualification Call", "- Qualification Call: ");
    ("discovery_call", "Discovery Call", "- Discovery Call: ");
    ("discovery_notes", "Discovery Notes", "- Discovery Notes: ");
    ("pitch_strategy", "Pitch Strategy", "- Pitch Strategy: ") ].

(** The words by which a failure value names its stage. *)
Definition stage_words (s : Pipeline.stage) : string :=
  match s with
  | Pipeline.StrategicAnalysis => "strategic analysis"
  | Pipeline.NarrativeDevelopment => "narrative development"
  | Pipeline.PlanIntegration => "plan integration"
  end.

(** A backend that answers every request with status 200 and a chat
    completion whose text is null. *)
Definition null_text_world : World :=
  {| http_post := fun _ _ =>
       Ok {| status_code := 200; json := Ok (chat_body PNone) |};
     strftime := "2024-05-01 12:00:00";
     create_pitch_plan_document := fun _ _ => Ok PNone;
     exc_str := fun _ => "error";
     str_lower := Str.ascii_lower;
     str_strip := Str.ascii_strip |}.

(** * Properties *)

(** ** Strings *)

Section StringFacts.

Import Str.

Lemma prefix_app (n s : string) : String.prefix n (n ++ s) = true.
Proof.
  induction n as [|c n IH]; simpl.
  - destruct s; reflexivity.
  - destruct (ascii_dec c c) as [_|ne]; [exact IH | now elim ne].
Qed.

Lemma prefix_split (n h : string) :
  String.prefix n h = true -> exists post, h = n ++ post.
Proof.
  revert h. induction n as [|c n IH]; intros h H.
  - exists h. reflexivity.
  - destruct h as [|d h]; simpl in H; [discriminate|].
    destruct (ascii_dec c d) as [->|]; [|discriminate].
    destruct (IH h H) as [post ->]. exists post. reflexivity.
Qed.

Lemma Contains_here (n q : string) : Contains (n ++ q) n.
Proof. exists EmptyString, q. reflexivity. Qed.

Lemma Contains_end (n : string) : Contains n n.
Proof.
  exists EmptyString, EmptyString. simpl.
  induction n as [|c n IH]; simpl; [reflexivity | now rewrite <- IH].
Qed.

Lemma append_assoc (a b c : string) : (a ++ b) ++ c = a ++ b ++ c.
Proof. induction a as [|x a IH]; simpl; [reflexivity | now rewrite IH]. Qed.

Lemma Contains_skip (p h n : string) : Contains h n -> Contains (p ++ h) n.
Proof.
  intros (pre & post & ->). exists (p ++ pre), post.
  now rewrite append_assoc.
Qed.

Lemma Contains_left (a b n : string) : Contains a n -> Contains (a ++ b) n.
Proof.
  intros (pre & post & ->). exists pre, (post ++ b).
  now rewrite !append_assoc.
Qed.

Lemma Contains_cons (c : ascii) (h n : string) :
  Contains h n -> Contains (String c h) n.
Proof. apply (Contains_skip (String c EmptyString)). Qed.

(** [str_in] decides [Contains]. *)
Lemma str_in_Contains (n h : string) : str_in n h = true <-> Contains h n.
Proof.
  split.
  - induction h as [|c h IH]; cbn [str_in]; intros H.
    + rewrite orb_false_r in H. destruct (prefix_split _ _ H) as [post ->].
      apply Contains_here.
    + apply orb_true_iff in H. destruct H as [H|H].
      * destruct (prefix_split _ _ H) as [post ->]. apply Contains_here.
      * apply Contains_cons, IH, H.
  - intros (pre & post & ->). induction pre as [|c pre IH].
    + change (EmptyString ++ n ++ post) with (n ++ post).
      destruct (n ++ post) eqn:E; cbn [str_in]; rewrite <- E, prefix_app;
        reflexivity.
    + change (String c pre ++ n ++ post) with (String c (pre ++ n ++ post)).
      cbn [str_in]. rewrite IH. apply orb_true_r.
Qed.

Lemma not_str_in_Contains (n h : string) :
  str_in n h = false -> ~ Contains h n.
Proof.
  intros H C. apply str_in_Contains in C. congruence.
Qed.

Lemma Contains_nonempty (h n : string) :
  Contains h n -> n <> EmptyString -> h <> EmptyString.
Proof.
  intros (pre & post & ->) Hn E.
  destruct pre; simpl in E; [|discriminate].
  destruct n; [now elim Hn | discriminate].
Qed.

Lemma ascii_lower_lowers : lowers ascii_lower.
Proof. intros s. destruct s; simpl; [easy | discriminate]. Qed.

Lemma lower_nonempty (py_lower : string -> string) (s : string) :
  lowers py_lower -> s <> EmptyString -> lower py_lower s <> EmptyString.
Proof.
  intros L Hs. destruct s as [|c s]; [now elim Hs|].
  apply L. discriminate.
Qed.

End StringFacts.

(** Finds [n] inside a concatenation by walking over its parts. *)
Ltac find_part :=
  first [ apply Contains_here
        | apply Contains_end
        | apply Contains_skip; find_part
        | apply Contains_left; find_part ].

Ltac bind_inv H :=
  repeat match type of H with
         | rbind ?c _ = Ok _ =>
             let E := fresh "E" in
             destruct c eqn:E; [cbn [rbind] in H | discriminate H]
         end.

Example lower_acme : Str.ascii_lower "Acme Corp" = "acme corp".
Proof. reflexivity. Qed.

Example strip_ex : Str.ascii_strip ("  Acme Corp " ++ Str.nl) = "Acme Corp".
Proof. reflexivity. Qed.

Example str_services :
  Py.str (PList [PStr "Media"; PStr "Creative"]) = "['Media', 'Creative']".
Proof. reflexivity. Qed.

Example str_misc :
  Py.str (PDict [("a", PInt (-12)); ("it's", PNone)]) =
  "{'a': -12, " ++ String Str.dquote ("it's" ++ String Str.dquote ": None}").
Proof. reflexivity. Qed.

Lemma skipn_length_app {A} (l x : list A) : skipn (List.length l) (l ++ x) = x.
Proof. induction l as [|a l IH]; simpl; [reflexivity | exact IH]. Qed.

(** ** Logs *)

Lemma new_calls_1 st r : new_calls st (logged st r) = [r].
Proof. unfold new_calls, logged. cbn [calls]. apply skipn_length_app. Qed.

Lemma new_calls_2 st r1 r2 : new_calls st (logged (logged st r1) r2) = [r1; r2].
Proof.
  unfold new_calls, logged. cbn [calls]. rewrite <- app_assoc.
  apply skipn_length_app.
Qed.

Lemma new_calls_3 st r1 r2 r3 :
  new_calls st (logged (logged (logged st r1) r2) r3) = [r1; r2; r3].
Proof.
  unfold new_calls, logged. cbn [calls]. rewrite <- !app_assoc.
  apply skipn_length_app.
Qed.

Lemma new_messages_app (st st' : state) (l : list sent) :
  outbox st' = (outbox st ++ l)%list -> new_messages st st' = l.
Proof. unfold new_messages. intros ->. apply skipn_length_app. Qed.

(** ** The provider adapters *)

Section Adapters.

Import Pipeline.

Lemma openai_chat_completion_run self messages model temperature max_tokens
    (w : World) (st : state) :
  let r := openai_request self messages model temperature max_tokens in
  openai_chat_completion self messages model temperature max_tokens w st =
  (adapter_result openai_text (http_post w (length (calls st)) r), logged st r).
Proof.
  cbv zeta. unfold openai_chat_completion, bind, requests_post, adapter_result.
  destruct (http_post w _ _) as [resp|e]; [|reflexivity].
  destruct (status_code resp =? 200); reflexivity.
Qed.

Lemma anthropic_completion_run self prompt model max_tokens temperature
    (w : World) (st : state) :
  let r := anthropic_request self prompt model max_tokens temperature in
  anthropic_completion self prompt model max_tokens temperature w st =
  (adapter_result anthropic_text (http_post w (length (calls st)) r),
   logged st r).
Proof.
  cbv zeta. unfold anthropic_completion, bind, requests_post, adapter_result.
  destruct (http_post w _ _) as [resp|e]; [|reflexivity].
  destruct (status_code resp =? 200); reflexivity.
Qed.

(** C3, as stated, fails: on a 200 response whose body lacks the expected
    text field both adapters raise [KeyError] instead of returning the
    failure value [None]. *)
Lemma adapters_raise_on_malformed_body :
  fst (openai_chat_completion demo_generator [] "gpt-4" (1 # 10)%Q 2500
         empty_body_world initial) = Raise (KeyError (PStr "choices")) /\
  fst (anthropic_completion demo_generator "hello"
         "claude-3-5-sonnet-20241022" 1500 (3 # 10)%Q
         empty_body_world initial) = Raise (KeyError (PStr "content")).
Proof. split; reflexivity. Qed.

(** C3, amended: when the backend answers with any status other than 200
    (so with every non-2xx status) both adapters return the failure value
    [None] and do not raise; when it answers 200 they return whatever the
    lookup of the text field in the body gives, and raise the lookup's
    exception when the field is missing. *)
Theorem adapters_on_response self messages prompt model temperature max_tokens
    (w : World) (st : state) (resp : response) :
  http_post w (length (calls st))
    (openai_request self messages model temperature max_tokens) = Ok resp ->
  http_post w (length (calls st))
    (anthropic_request self prompt model max_tokens temperature) = Ok resp ->
  (status_code resp <> 200 ->
     fst (openai_chat_completion self messages model temperature max_tokens
            w st) = Ok PNone /\
     fst (anthropic_completion self prompt model max_tokens temperature
            w st) = Ok PNone) /\
  (status_code resp = 200 ->
     fst (openai_chat_completion self messages model temperature max_tokens
            w st) = openai_text resp /\
     fst (anthropic_completion self prompt model max_tokens temperature
            w st) = anthropic_text resp) /\
  (forall body, json resp = Ok (PDict body) ->
     Py.lookup "choices" body = None ->
     openai_text resp = Raise (KeyError (PStr "choices"))) /\
  (forall body, json resp = Ok (PDict body) ->
     Py.lookup "content" body = None ->
     anthropic_text resp = Raise (KeyError (PStr "content"))).
Proof.
  intros Ho Ha.
  rewrite openai_chat_completion_run, anthropic_completion_run.
  cbv zeta. rewrite Ho, Ha. unfold adapter_result. cbn [fst].
  repeat split.
  - apply Z.eqb_neq in H. now rewrite H.
  - apply Z.eqb_neq in H. now rewrite H.
  - apply Z.eqb_eq in H. now rewrite H.
  - apply Z.eqb_eq in H. now rewrite H.
  - intros body Hb Hl. unfold openai_text. rewrite Hb. cbn. now rewrite Hl.
  - intros body Hb Hl. unfold anthropic_text. rewrite Hb. cbn. now rewrite Hl.
Qed.

Lemma adapters_on_response_witness :
  fst (openai_chat_completion demo_generator [] "gpt-4" (1 # 10)%Q 2500
         unavailable_world initial) = Ok PNone /\
  fst (anthropic_completion demo_generator "hello" "gpt-4" 2500 (1 # 10)%Q
         unavailable_world initial) = Ok PNone.
Proof.
  apply (adapters_on_response demo_generator [] "hello" "gpt-4" (1 # 10)%Q 2500
           unavailable_world initial
           {| status_code := 503; json := Raise JSONDecodeError |}).
  - reflexivity.
  - reflexivity.
  - simpl. lia.
Defined.

End Adapters.

(** ** The three stages and the orchestrator *)

Section Orchestrator.

Import Pipeline.

Variable self : PitchPlanGenerator.
Variable client_data : dict.
Variable w : World.
Variable st : state.

Lemma run1_eq :
  run1 self client_data w st =
  (adapter_result openai_text
     (http_post w (length (calls st)) (strategic_request self client_data)),
   logged st (strategic_request self client_data)).
Proof. apply openai_chat_completion_run. Qed.

Lemma run2_eq v1 :
  run2 self client_data w st v1 =
  (adapter_result anthropic_text
     (http_post w (length (calls (snd (run1 self client_data w st))))
        (narrative_request self client_data v1)),
   logged (snd (run1 self client_data w st))
     (narrative_request self client_data v1)).
Proof. apply anthropic_completion_run. Qed.

Lemma run3_eq v1 v2 :
  run3 self client_data w st v1 v2 =
  (adapter_result openai_text
     (http_post w (length (calls (snd (run2 self client_data w st v1))))
        (plan_request self client_data v1 v2)),
   logged (snd (run2 self client_data w st v1))
     (plan_request self client_data v1 v2)).
Proof. apply openai_chat_completion_run. Qed.

(** The orchestrator, unfolded over its three stage calls. *)
Lemma generate_pitch_plan_eq :
  generate_pitch_plan self client_data w st =
  match fst (run1 self client_data w st) with
  | Raise e => (Raise e, snd (run1 self client_data w st))
  | Ok v1 =>
      if Py.truthy v1 then
        match fst (run2 self client_data w st v1) with
        | Raise e => (Raise e, snd (run2 self client_data w st v1))
        | Ok v2 =>
            if Py.truthy v2 then
              match fst (run3 self client_data w st v1 v2) with
              | Raise e => (Raise e, snd (run3 self client_data w st v1 v2))
              | Ok v3 =>
                  if Py.truthy v3
                  then (Ok (bundle client_data v1 v2 v3 (strftime w)),
                        snd (run3 self client_data w st v1 v2))
                  else (Ok (failure PlanIntegration),
                        snd (run3 self client_data w st v1 v2))
              end
            else (Ok (failure NarrativeDevelopment),
                  snd (run2 self client_data w st v1))
        end
      else (Ok (failure StrategicAnalysis), snd (run1 self client_data w st))
  end.
Proof.
  unfold generate_pitch_plan, bind, run3, run2, run1.
  destruct (strategic_analysis self client_data w st) as [[v1|e1] st1];
    cbn [fst snd]; [|reflexivity].
  destruct (Py.truthy v1); cbn [negb]; [|reflexivity].
  destruct (narrative_development self v1 client_data w st1) as [[v2|e2] st2];
    cbn [fst snd]; [|reflexivity].
  destruct (Py.truthy v2); cbn [negb]; [|reflexivity].
  destruct (plan_integration self v1 v2 client_data w st2) as [[v3|e3] st3];
    cbn [fst snd]; [|reflexivity].
  destruct (Py.truthy v3); reflexivity.
Qed.

Local Abbreviation r1 := (run1 self client_data w st).
Local Abbreviation r2 := (run2 self client_data w st).
Local Abbreviation r3 := (run3 self client_data w st).

(** The run of the orchestrator, by the outcome of its stage calls. *)
Lemma generate_pitch_plan_cases :
  (exists v1 v2 v3,
     produced r1 v1 /\ produced (r2 v1) v2 /\ produced (r3 v1 v2) v3 /\
     generate_pitch_plan self client_data w st =
     (Ok (bundle client_data v1 v2 v3 (strftime w)), snd (r3 v1 v2)))
  \/
  (exists s r,
     earliest_failure self client_data w st s r /\
     generate_pitch_plan self client_data w st = reported s r).
Proof.
  rewrite generate_pitch_plan_eq.
  destruct (fst r1) as [v1|e1] eqn:E1.
  2:{ right. exists StrategicAnalysis, r1. split.
      - apply fails_first. unfold failed. now rewrite E1.
      - unfold reported. now rewrite E1. }
  destruct (Py.truthy v1) eqn:T1.
  2:{ right. exists StrategicAnalysis, r1. split.
      - apply fails_first. unfold failed. now rewrite E1.
      - unfold reported. now rewrite E1. }
  assert (P1 : produced r1 v1) by (split; assumption).
  destruct (fst (r2 v1)) as [v2|e2] eqn:E2.
  2:{ right. exists NarrativeDevelopment, (r2 v1). split.
      - apply fails_second; [exact P1|]. unfold failed. now rewrite E2.
      - unfold reported. now rewrite E2. }
  destruct (Py.truthy v2) eqn:T2.
  2:{ right. exists NarrativeDevelopment, (r2 v1). split.
      - apply fails_second; [exact P1|]. unfold failed. now rewrite E2.
      - unfold reported. now rewrite E2. }
  assert (P2 : produced (r2 v1) v2) by (split; assumption).
  destruct (fst (r3 v1 v2)) as [v3|e3] eqn:E3.
  2:{ right. exists PlanIntegration, (r3 v1 v2). split.
      - apply fails_third; [exact P1|exact P2|]. unfold failed. now rewrite E3.
      - unfold reported. now rewrite E3. }
  destruct (Py.truthy v3) eqn:T3.
  2:{ right. exists PlanIntegration, (r3 v1 v2). split.
      - apply fails_third; [exact P1|exact P2|]. unfold failed. now rewrite E3.
      - unfold reported. now rewrite E3. }
  left. exists v1, v2, v3. repeat split; assumption.
Qed.

End Orchestrator.

Section OrchestratorProperties.

Import Pipeline.

Lemma failure_injective (s s' : stage) : failure s = failure s' -> s = s'.
Proof. destruct s, s'; intros H; try reflexivity; discriminate H. Qed.

(** C1, as stated, fails: for a record named "Acme", when the chat backend
    answers the first stage with status 200 and a body without the text
    field, the orchestrator returns neither a bundle nor a failure value:
    it raises the adapter's [KeyError]. *)
Lemma generate_pitch_plan_raises :
  Py.lookup "client_name" acme_min_record = Some (PStr "Acme") /\
  fst (generate_pitch_plan demo_generator acme_min_record
         empty_body_world initial) = Raise (KeyError (PStr "choices")).
Proof. split; reflexivity. Qed.

(** C1, amended: for every client record with a non-empty name, the
    orchestrator either returns the bundle, which holds the client name,
    the three stage outputs, none of them empty, and the timestamp; or
    the earliest stage whose adapter call failed decides the outcome: when
    that call returned no text the orchestrator returns the failure value
    of that stage (the three failure values are distinct), and when that
    call raised, the orchestrator raises the same exception. *)
Theorem generate_pitch_plan_outcome self (client_data : dict) (name : string)
    (w : World) (st : state) :
  Py.lookup "client_name" client_data = Some (PStr name) ->
  name <> EmptyString ->
  let out := generate_pitch_plan self client_data w st in
  ((exists v1 v2 v3,
      produced (run1 self client_data w st) v1 /\
      produced (run2 self client_data w st v1) v2 /\
      produced (run3 self client_data w st v1 v2) v3 /\
      fst out = Ok [ ("client_name", PStr name);
                     ("strategic_foundation", v1);
                     ("narrative", v2);
                     ("final_plan", v3);
                     ("generated_at", PStr (strftime w)) ] /\
      v1 <> PStr EmptyString /\ v2 <> PStr EmptyString /\
      v3 <> PStr EmptyString)
   \/
   (exists s r,
      earliest_failure self client_data w st s r /\
      match fst r with
      | Ok _ => fst out = Ok (failure s)
      | Raise e => fst out = Raise e
      end)) /\
  (forall s s', failure s = failure s' -> s = s').
Proof.
  intros Hname Hne out. split; [|apply failure_injective].
  destruct (generate_pitch_plan_cases self client_data w st)
    as [(v1 & v2 & v3 & P1 & P2 & P3 & E) | (s & r & F & E)].
  - left. exists v1, v2, v3. repeat split; try apply P1; try apply P2;
      try apply P3.
    + unfold out. rewrite E. cbn [fst]. unfold bundle, Py.dget.
      now rewrite Hname.
    + destruct P1 as [_ T]. intros ->. discriminate T.
    + destruct P2 as [_ T]. intros ->. discriminate T.
    + destruct P3 as [_ T]. intros ->. discriminate T.
  - right. exists s, r. split; [exact F|].
    unfold out. rewrite E. unfold reported. destruct (fst r); reflexivity.
Qed.

Lemma generate_pitch_plan_outcome_witness :
  exists s r,
    earliest_failure demo_generator acme_min_record unavailable_world initial
      s r /\
    fst (generate_pitch_plan demo_generator acme_min_record unavailable_world
           initial) = Ok (failure s).
Proof.
  assert (Hne : "Acme" <> EmptyString) by discriminate.
  destruct (generate_pitch_plan_outcome demo_generator acme_min_record "Acme"
              unavailable_world initial eq_refl Hne) as [[H|H] _].
  - destruct H as (v1 & _ & _ & [P T] & _). exfalso.
    vm_compute in P. injection P as <-. discriminate T.
  - destruct H as (s & r & F & E). exists s, r. split; [exact F|].
    destruct (fst r) eqn:Er; [exact E|].
    exfalso. revert E. vm_compute. discriminate.
Defined.

(** C2: when the call of stage 1 fails, the run makes that one request
    and no adapter call for stages 2 and 3; when the call of stage 2
    fails, no adapter call is made for stage 3; and in every run each
    stage has at most one adapter call. *)
Theorem stages_called_at_most_once self (client_data : dict) (w : World)
    (st : state) :
  let new := new_calls st (snd (generate_pitch_plan self client_data w st)) in
  (forall s, calls_of s new <= 1)%nat /\
  (failed (run1 self client_data w st) ->
     new = [strategic_request self client_data] /\
     calls_of NarrativeDevelopment new = 0%nat /\
     calls_of PlanIntegration new = 0%nat) /\
  (forall v1,
     produced (run1 self client_data w st) v1 ->
     failed (run2 self client_data w st v1) ->
     new = [strategic_request self client_data;
            narrative_request self client_data v1] /\
     calls_of PlanIntegration new = 0%nat).
Proof.
  cbv zeta. rewrite generate_pitch_plan_eq.
  assert (S1 : snd (run1 self client_data w st) =
               logged st (strategic_request self client_data))
    by now rewrite run1_eq.
  assert (S2 : forall v1, snd (run2 self client_data w st v1) =
               logged (logged st (strategic_request self client_data))
                 (narrative_request self client_data v1))
    by (intros v1; now rewrite run2_eq, S1).
  assert (S3 : forall v1 v2, snd (run3 self client_data w st v1 v2) =
               logged (logged (logged st (strategic_request self client_data))
                         (narrative_request self client_data v1))
                 (plan_request self client_data v1 v2))
    by (intros v1 v2; now rewrite run3_eq, S2).
  cbn [failed produced].
  destruct (fst (run1 self client_data w st)) as [v1|e1].
  2:{ cbn [snd]. rewrite S1, new_calls_1. split; [|split].
      - intros []; cbv; lia.
      - intros _. repeat split.
      - intros v [H _]. discriminate H. }
  destruct (Py.truthy v1) eqn:T1.
  2:{ cbn [snd]. rewrite S1, new_calls_1. split; [|split].
      - intros []; cbv; lia.
      - intros _. repeat split.
      - intros v [H T]. injection H as <-. congruence. }
  assert (R12 : forall s,
            (calls_of s [strategic_request self client_data;
                         narrative_request self client_data v1] <= 1)%nat)
    by (intros []; cbv; lia).
  destruct (fst (run2 self client_data w st v1)) as [v2|e2] eqn:E2.
  2:{ cbn [snd]. rewrite S2, new_calls_2. split; [|split].
      - exact R12.
      - discriminate.
      - intros v [H _] _. injection H as <-. repeat split. }
  destruct (Py.truthy v2) eqn:T2.
  2:{ cbn [snd]. rewrite S2, new_calls_2. split; [|split].
      - exact R12.
      - discriminate.
      - intros v [H _] _. injection H as <-. repeat split. }
  assert (N : new_calls st
                (snd (match fst (run3 self client_data w st v1 v2) with
                      | Ok v3 =>
                          if Py.truthy v3
                          then (Ok (bundle client_data v1 v2 v3 (strftime w)),
                                snd (run3 self client_data w st v1 v2))
                          else (Ok (failure PlanIntegration),
                                snd (run3 self client_data w st v1 v2))
                      | Raise e =>
                          (Raise e, snd (run3 self client_data w st v1 v2))
                      end)) =
              [strategic_request self client_data;
               narrative_request self client_data v1;
               plan_request self client_data v1 v2]).
  { destruct (fst (run3 self client_data w st v1 v2)) as [v3|e3];
      [destruct (Py.truthy v3)|]; cbn [snd]; rewrite S3; apply new_calls_3. }
  rewrite N. split; [|split].
  - intros []; cbv; lia.
  - discriminate.
  - intros v [H _] F. injection H as <-. rewrite E2 in F. congruence.
Qed.

Lemma stages_called_at_most_once_witness :
  new_calls initial
    (snd (generate_pitch_plan demo_generator acme_min_record unavailable_world
            initial)) =
  [strategic_request demo_generator acme_min_record] /\
  calls_of NarrativeDevelopment
    (new_calls initial
       (snd (generate_pitch_plan demo_generator acme_min_record
               unavailable_world initial))) = 0%nat /\
  calls_of PlanIntegration
    (new_calls initial
       (snd (generate_pitch_plan demo_generator acme_min_record
               unavailable_world initial))) = 0%nat.
Proof.
  apply (stages_called_at_most_once demo_generator acme_min_record
           unavailable_world initial).
  reflexivity.
Defined.

(** C5: when the adapter call of a stage yields the empty text, the
    orchestrator returns the failure value of that stage; and no
    dictionary it returns holds an empty stage output. *)
Theorem empty_output_is_failure self (client_data : dict) (w : World)
    (st : state) :
  let out := generate_pitch_plan self client_data w st in
  (fst (run1 self client_data w st) = Ok (PStr EmptyString) ->
     fst out = Ok (failure StrategicAnalysis)) /\
  (forall v1,
     produced (run1 self client_data w st) v1 ->
     fst (run2 self client_data w st v1) = Ok (PStr EmptyString) ->
     fst out = Ok (failure NarrativeDevelopment)) /\
  (forall v1 v2,
     produced (run1 self client_data w st) v1 ->
     produced (run2 self client_data w st v1) v2 ->
     fst (run3 self client_data w st v1 v2) = Ok (PStr EmptyString) ->
     fst out = Ok (failure PlanIntegration)) /\
  (forall d k,
     fst out = Ok d -> In k stage_output_keys ->
     Py.lookup k d <> Some (PStr EmptyString)).
Proof.
  cbv zeta. rewrite generate_pitch_plan_eq. cbn [produced].
  split; [|split; [|split]].
  - intros ->. reflexivity.
  - intros v1 [-> ->] ->. reflexivity.
  - intros v1 v2 [-> ->] [-> ->] ->. reflexivity.
  - intros d k E Hk.
    assert (Hf : forall s, Py.lookup k (failure s) <> Some (PStr EmptyString)).
    { intros s. destruct Hk as [<-|[<-|[<-|[]]]]; destruct s; discriminate. }
    destruct (fst (run1 self client_data w st)) as [v1|]; [|discriminate E].
    destruct (Py.truthy v1) eqn:T1;
      [|cbn [fst] in E; injection E as <-; apply Hf].
    destruct (fst (run2 self client_data w st v1)) as [v2|]; [|discriminate E].
    destruct (Py.truthy v2) eqn:T2;
      [|cbn [fst] in E; injection E as <-; apply Hf].
    destruct (fst (run3 self client_data w st v1 v2)) as [v3|];
      [|discriminate E].
    destruct (Py.truthy v3) eqn:T3;
      [|cbn [fst] in E; injection E as <-; apply Hf].
    cbn [fst] in E. injection E as <-.
    destruct Hk as [<-|[<-|[<-|[]]]]; cbn; intros [= ->]; discriminate.
Qed.

Lemma empty_output_is_failure_witness :
  fst (generate_pitch_plan demo_generator acme_min_record empty_text_world
         initial) = Ok (failure StrategicAnalysis).
Proof.
  apply (empty_output_is_failure demo_generator acme_min_record
           empty_text_world initial).
  reflexivity.
Defined.

End OrchestratorProperties.

(** ** What the prompts embed *)

Section Prompts.

Import Str Pipeline.

Lemma narrative_prompt_parts (sf : pyval) (cd : dict) :
  Contains (narrative_prompt sf cd) (Py.str sf) /\
  Contains (narrative_prompt sf cd)
           (Py.str (Py.dget cd "client_name" (PStr "the client"))).
Proof. unfold narrative_prompt. split; find_part. Qed.

Lemma plan_prompt_parts (sf nar : pyval) (cd : dict) :
  Contains (plan_prompt sf nar cd) (Py.str sf) /\
  Contains (plan_prompt sf nar cd) (Py.str nar) /\
  Contains (plan_prompt sf nar cd)
           (Py.str (Py.dget cd "client_name" (PStr "Client"))).
Proof. unfold plan_prompt. repeat split; find_part. Qed.

(** C8: the prompt that stage 2 sends holds the whole text of the output
    of stage 1 and the client name, and the prompt that stage 3 sends
    holds the whole text of the outputs of stages 1 and 2 and the client
    name. *)
Theorem later_prompts_embed_earlier_outputs self (client_data : dict)
    (name s1 s2 : string) (w : World) (st : state) :
  Py.lookup "client_name" client_data = Some (PStr name) ->
  (exists r p,
     new_calls st (snd (narrative_development self (PStr s1) client_data w st))
       = [r] /\
     user_prompt r = Some p /\ Contains p s1 /\ Contains p name) /\
  (exists r p,
     new_calls st
       (snd (plan_integration self (PStr s1) (PStr s2) client_data w st))
       = [r] /\
     user_prompt r = Some p /\
     Contains p s1 /\ Contains p s2 /\ Contains p name).
Proof.
  intros Hname. split.
  - exists (anthropic_request self (narrative_prompt (PStr s1) client_data)
              "claude-3-5-sonnet-20241022" 1500 (3 # 10)%Q),
           (narrative_prompt (PStr s1) client_data).
    split; [|split; [reflexivity|]].
    + unfold narrative_development. rewrite anthropic_completion_run.
      apply new_calls_1.
    + destruct (narrative_prompt_parts (PStr s1) client_data) as [H1 H2].
      unfold Py.dget in H2. rewrite Hname in H2. split; assumption.
  - exists (openai_request self
              (plan_messages (PStr s1) (PStr s2) client_data)
              "gpt-4" (1 # 10)%Q 4000),
           (plan_prompt (PStr s1) (PStr s2) client_data).
    split; [|split; [reflexivity|]].
    + unfold plan_integration. rewrite openai_chat_completion_run.
      apply new_calls_1.
    + destruct (plan_prompt_parts (PStr s1) (PStr s2) client_data)
        as (H1 & H2 & H3).
      unfold Py.dget in H3. rewrite Hname in H3. repeat split; assumption.
Qed.

Lemma later_prompts_embed_earlier_outputs_witness :
  exists r p,
    new_calls initial
      (snd (narrative_development demo_generator (PStr acme_s1)
              acme_min_record unavailable_world initial)) = [r] /\
    user_prompt r = Some p /\ Contains p acme_s1 /\ Contains p "Acme".
Proof.
  apply (later_prompts_embed_earlier_outputs demo_generator acme_min_record
           "Acme" acme_s1 acme_s2 unavailable_world initial).
  reflexivity.
Defined.

Example parse_acme_page : Notion.parse_client_page acme_page = Ok acme_record.
Proof. reflexivity. Qed.




End Prompts.

(** ** Extraction *)

Section Extraction.

Import Str Notion.

Lemma find_client_page_run self database_id client_name (w : World)
    (st : state) :
  find_client_page self database_id client_name w st =
  (found w client_name
     (http_post w (length (calls st)) (query_request self database_id)),
   logged st (query_request self database_id)).
Proof.
  unfold find_client_page, bind, requests_post, found.
  fold (query_request self database_id).
  destruct (http_post w _ _) as [resp|e]; [|reflexivity].
  destruct (status_code resp =? 200); reflexivity.
Qed.

Lemma extract_client_data_run self database_id client_name (w : World)
    (st : state) :
  extract_client_data self database_id client_name w st =
  (match found w client_name
           (http_post w (length (calls st)) (query_request self database_id))
   with
   | Ok client_page =>
       if Py.truthy client_page then parse_client_page client_page
       else Ok (not_found client_name)
   | Raise e => Raise e
   end,
   logged st (query_request self database_id)).
Proof.
  unfold extract_client_data, bind. rewrite find_client_page_run.
  destruct (found _ _ _) as [page|e]; [|reflexivity].
  destruct (Py.truthy page); reflexivity.
Qed.

Lemma search_first_match (py_lower : string -> string) (query : string)
    (pages : list pyval) :
  Forall Titled pages ->
  (exists before page after,
     pages = (before ++ page :: after)%list /\
     Matches py_lower query page /\
     Forall (fun p => ~ Matches py_lower query p) before /\
     search py_lower query pages = Ok page)
  \/
  (Forall (fun p => ~ Matches py_lower query p) pages /\
   search py_lower query pages = Ok PNone).
Proof.
  induction 1 as [|page pages [name Hn] Hall IH].
  - right. split; [constructor | reflexivity].
  - cbn [search]. rewrite Hn. cbn [rbind Py.lower].
    destruct (str_in (lower py_lower query) (lower py_lower name)) eqn:E.
    + left. exists [], page, pages. repeat split.
      * exists name. split; [exact Hn | now apply str_in_Contains].
      * constructor.
    + assert (Hno : ~ Matches py_lower query page).
      { intros (name' & Hn' & C). rewrite Hn in Hn'. injection Hn' as <-.
        apply str_in_Contains in C. congruence. }
      destruct IH as [(before & p & after & -> & Hm & Hb & Hs) | [Hnone Hs]].
      * left. exists (page :: before), p, after. repeat split; try assumption.
        constructor; assumption.
      * right. split; [constructor; assumption | exact Hs].
Qed.

(** C9: when the query of the database succeeds and every page it lists
    has a name, the lookup returns the first listed page whose name holds
    the query as a substring when case is ignored, and [None] when no
    page does; on [None] the extraction returns the not-found value.
    Case is ignored as the code ignores it: the name and the query are
    both lowered by [str.lower], whatever that function does on letters
    outside ASCII. *)
Theorem find_client_page_first_match self database_id client_name
    (w : World) (st : state) (resp : response) (body : dict)
    (pages : list pyval) :
  http_post w (length (calls st)) (query_request self database_id) = Ok resp ->
  status_code resp = 200 ->
  json resp = Ok (PDict body) ->
  Py.lookup "results" body = Some (PList pages) ->
  Forall Titled pages ->
  let r := fst (find_client_page self database_id client_name w st) in
  (exists before page after,
     pages = (before ++ page :: after)%list /\
     Matches (str_lower w) client_name page /\
     Forall (fun p => ~ Matches (str_lower w) client_name p) before /\
     r = Ok page)
  \/
  (Forall (fun p => ~ Matches (str_lower w) client_name p) pages /\
   r = Ok PNone /\
   fst (extract_client_data self database_id client_name w st)
   = Ok (not_found client_name)).
Proof.
  intros Hp Hs Hj Hl Ht r.
  assert (Hf : found w client_name
                 (http_post w (length (calls st))
                    (query_request self database_id))
               = search (str_lower w) client_name pages).
  { unfold found. rewrite Hp, Hs, Hj. cbn [Z.eqb Pos.eqb rbind Py.get].
    unfold Py.dget. now rewrite Hl. }
  assert (Hr : r = search (str_lower w) client_name pages).
  { unfold r. rewrite find_client_page_run. exact Hf. }
  destruct (search_first_match (str_lower w) client_name pages Ht)
    as [(before & page & after & E & Hm & Hb & Hsearch) | [Hnone Hsearch]].
  - left. exists before, page, after. repeat split; try assumption.
    now rewrite Hr.
  - right. repeat split; try assumption; [now rewrite Hr|].
    rewrite extract_client_data_run. cbn [fst].
    now rewrite Hf, Hsearch.
Qed.

Lemma find_client_page_first_match_witness :
  fst (find_client_page demo_extractor "db1" "acme"
         (workspace [globex_page; acme_page; acme_labs_page]) initial)
  = Ok acme_page.
Proof.
  destruct (find_client_page_first_match demo_extractor "db1" "acme"
              (workspace [globex_page; acme_page; acme_labs_page]) initial
              {| status_code := 200;
                 json := Ok (PDict [ ("object", PStr "list");
                                     ("results",
                                      PList [globex_page; acme_page;
                                             acme_labs_page]) ]) |}
              [ ("object", PStr "list");
                ("results", PList [globex_page; acme_page; acme_labs_page]) ]
              [globex_page; acme_page; acme_labs_page]
              eq_refl eq_refl eq_refl eq_refl)
    as [(before & page & after & _ & _ & _ & E) | (_ & E & _)].
  - repeat constructor; eexists; reflexivity.
  - vm_compute in E. injection E as <-. reflexivity.
  - exfalso. vm_compute in E. discriminate E.
Defined.

Lemma parse_client_page_fields (page : pyval) (rec : dict) :
  parse_client_page page = Ok rec -> map fst rec = record_fields.
Proof.
  unfold parse_client_page. intros H. bind_inv H.
  injection H as <-. reflexivity.
Qed.

Lemma parse_client_page_name (page : pyval) (rec : dict) (v : pyval) :
  parse_client_page page = Ok rec -> result_title page = Ok v ->
  Py.lookup "client_name" rec = Some v.
Proof.
  unfold parse_client_page, result_title, field. intros H Ht.
  destruct (Py.get page "properties" (PDict [])) as [properties|];
    [cbn [rbind] in H, Ht | discriminate H].
  rewrite Ht in H. cbn [rbind] in H. bind_inv H.
  injection H as <-. reflexivity.
Qed.

Lemma parse_client_page_defaults (page : pyval) (props rec : dict)
    (key prop : string) (default : pyval) :
  parse_client_page page = Ok rec ->
  Py.get page "properties" (PDict []) = Ok (PDict props) ->
  In (key, prop, default) field_table ->
  Py.lookup prop props = None ->
  Py.lookup key rec = Some default.
Proof.
  unfold parse_client_page. intros H Hp Hin Hl.
  rewrite Hp in H. cbn [rbind] in H. bind_inv H. injection H as <-.
  repeat (destruct Hin as [Hin|Hin];
          [ injection Hin as <- <- <-;
            repeat match goal with
                   | E : field _ (PDict props) _ = Ok _ |- _ =>
                       unfold field, Py.get, Py.dget in E;
                       first [ rewrite Hl in E; cbn in E; injection E as <-
                             | clear E ]
                   end;
            reflexivity
          | ]).
  destruct Hin.
Qed.

Lemma search_found (py_lower : string -> string) (query : string)
    (pages : list pyval) (page : pyval) :
  search py_lower query pages = Ok page -> Py.truthy page = true ->
  exists name,
    result_title page = Ok (PStr name) /\
    str_in (lower py_lower query) (lower py_lower name) = true.
Proof.
  induction pages as [|p pages IH]; cbn [search]; intros H T.
  - injection H as <-. discriminate T.
  - destruct (result_title p) as [title|] eqn:Et; [|discriminate H].
    cbn [rbind] in H.
    destruct title as [| | |name| |]; try discriminate H.
    cbn [Py.lower rbind] in H.
    destruct (str_in (lower py_lower query) (lower py_lower name)) eqn:E.
    + injection H as <-. exists name. split; assumption.
    + apply IH; assumption.
Qed.

Lemma found_page (w : World) (query : string) (r : result response)
    (page : pyval) :
  found w query r = Ok page -> Py.truthy page = true ->
  exists name,
    result_title page = Ok (PStr name) /\
    str_in (lower (str_lower w) query) (lower (str_lower w) name) = true.
Proof.
  unfold found. intros H T.
  destruct r as [resp|]; [|discriminate H].
  destruct (status_code resp =? 200);
    [|injection H as <-; discriminate T].
  bind_inv H. eapply search_found; eassumption.
Qed.

(** C6, as stated, fails.  The record extracted for the query "acme" from
    a page that has a name and nothing else holds the empty text (the
    empty list for the services), not an "unknown" value, so the client
    information of the prompt shows neither of the texts "Unknown" and
    "N/A". *)
Lemma extracted_defaults_are_empty :
  fst (extract_client_data demo_extractor "db1" "acme" (workspace [bare_page])
         initial) = Ok bare_record /\
  Py.lookup "status" bare_record = Some (PStr EmptyString) /\
  Py.lookup "services" bare_record = Some (PList []) /\
  ~ Contains (Pipeline.format_client_info bare_record) "Unknown" /\
  ~ Contains (Pipeline.format_client_info bare_record) "N/A".
Proof.
  repeat split.
  - apply not_str_in_Contains. vm_compute. reflexivity.
  - apply not_str_in_Contains. vm_compute. reflexivity.
Qed.

(** C6, amended.  A record produced by extraction always has all eleven
    fields, so the prompt construction never uses a default for a missing
    key; a field whose property the page lacks holds the empty text (the
    empty list for the services), not an "unknown" value; and for a query
    that is not empty, as the queries of the program are, the client name
    is a text that is not empty and holds the query when case is ignored,
    that is, once both are lowered by [str.lower]. *)
Theorem extracted_record_invariant self database_id client_name
    (w : World) (st : state) (rec : dict) :
  fst (extract_client_data self database_id client_name w st) = Ok rec ->
  Py.has_key "error" rec = false ->
  map fst rec = record_fields /\
  (forall k default,
     In k record_fields -> Py.lookup k rec = Some (Py.dget rec k default)) /\
  (lowers (str_lower w) -> client_name <> EmptyString ->
   exists name,
     Py.lookup "client_name" rec = Some (PStr name) /\
     name <> EmptyString /\
     Contains (lower (str_lower w) name) (lower (str_lower w) client_name)) /\
  (forall page props rec' key prop default,
     parse_client_page page = Ok rec' ->
     Py.get page "properties" (PDict []) = Ok (PDict props) ->
     In (key, prop, default) field_table ->
     Py.lookup prop props = None ->
     Py.lookup key rec' = Some default).
Proof.
  rewrite extract_client_data_run. cbn [fst]. intros H Herr.
  destruct (found w client_name _) as [page|] eqn:Ef; [|discriminate H].
  destruct (Py.truthy page) eqn:T.
  2:{ injection H as <-. discriminate Herr. }
  assert (Hfields : map fst rec = record_fields)
    by (eapply parse_client_page_fields; eassumption).
  split; [exact Hfields|]. split; [|split].
  - intros k default Hk. unfold Py.dget.
    destruct (Py.lookup k rec) eqn:El; [reflexivity|]. exfalso.
    destruct rec as [|[k1 v1] [|[k2 v2] [|[k3 v3] [|[k4 v4] [|[k5 v5]
      [|[k6 v6] [|[k7 v7] [|[k8 v8] [|[k9 v9] [|[k10 v10] [|[k11 v11]
      [|? ?]]]]]]]]]]]]; try discriminate Hfields.
    cbn in Hfields. injection Hfields as -> -> -> -> -> -> -> -> -> -> ->.
    repeat (destruct Hk as [<-|Hk]; [discriminate El|]). destruct Hk.
  - intros Hl Hq. destruct (found_page _ _ _ _ Ef T) as (name & Ht & Hin).
    exists name. apply str_in_Contains in Hin. repeat split.
    + eapply parse_client_page_name; eassumption.
    + intros ->. apply (Contains_nonempty _ _ Hin).
      * now apply lower_nonempty.
      * reflexivity.
    + exact Hin.
  - intros page' props rec' key prop default.
    apply parse_client_page_defaults.
Qed.

Lemma extracted_record_invariant_witness :
  exists name,
    Py.lookup "client_name" bare_record = Some (PStr name) /\
    name <> EmptyString /\
    Contains (lower ascii_lower name) (lower ascii_lower "acme").
Proof.
  apply (extracted_record_invariant demo_extractor "db1" "acme"
           (workspace [bare_page]) initial bare_record).
  - reflexivity.
  - reflexivity.
  - exact ascii_lower_lowers.
  - discriminate.
Defined.

End Extraction.

(** ** The job runner *)

Section JobRunner.

Import Str Bot.

Lemma process_pitch_plan_run self client_name channel_id user_id
    (w : World) (st : state) :
  process_pitch_plan self client_name channel_id user_id w st =
  (Ok tt, job_end self client_name channel_id w st).
Proof.
  unfold process_pitch_plan, try_except, process_body, job_end, bind.
  cbn [chat_postMessage send].
  fold (posting st (PostMessage channel_id (step1_text client_name))).
  destruct (Notion.extract_client_data _ _ _ _ _) as [[cd|e] s1];
    [|reflexivity].
  destruct (Py.has_key "error" cd); [reflexivity|].
  fold (posting s1 (PostMessage channel_id step2_text)).
  destruct (Pipeline.generate_pitch_plan _ _ _ _) as [[plan|e] s2];
    [|reflexivity].
  destruct (Py.has_key "error" plan).
  - unfold lift. destruct (Py.item (PDict plan) "error"); reflexivity.
  - cbn [get_world lift].
    destruct (create_pitch_plan_document w plan (team_emails self))
      as [url|e]; [|reflexivity].
    destruct (Py.truthy url); reflexivity.
Qed.

Lemma extract_client_data_outbox self database_id client_name
    (w : World) (st : state) :
  outbox (snd (Notion.extract_client_data self database_id client_name w st))
  = outbox st.
Proof. rewrite extract_client_data_run. reflexivity. Qed.

Lemma generate_pitch_plan_outbox self client_data (w : World) (st : state) :
  outbox (snd (Pipeline.generate_pitch_plan self client_data w st))
  = outbox st.
Proof.
  rewrite generate_pitch_plan_eq.
  assert (S1 : outbox (snd (run1 self client_data w st)) = outbox st)
    by now rewrite run1_eq.
  assert (S2 : forall v1,
            outbox (snd (run2 self client_data w st v1)) = outbox st)
    by (intros v1; now rewrite run2_eq).
  assert (S3 : forall v1 v2,
            outbox (snd (run3 self client_data w st v1 v2)) = outbox st)
    by (intros v1 v2; rewrite run3_eq; cbn [snd logged outbox]; apply S2).
  destruct (fst (run1 self client_data w st)) as [v1|]; [|exact S1].
  destruct (Py.truthy v1); [|exact S1].
  destruct (fst (run2 self client_data w st v1)) as [v2|]; [|apply S2].
  destruct (Py.truthy v2); [|apply S2].
  destruct (fst (run3 self client_data w st v1 v2)) as [v3|]; [|apply S3].
  destruct (Py.truthy v3); apply S3.
Qed.

Lemma phase_step1 ch q : phase_of (PostMessage ch (step1_text q)) = Some EXTRACTING.
Proof. reflexivity. Qed.

Lemma phase_not_found ch q : phase_of (PostMessage ch (not_found_text q)) = Some FAILED.
Proof. reflexivity. Qed.

Lemma phase_generation_failed ch v :
  phase_of (PostMessage ch (generation_failed_text v)) = Some FAILED.
Proof. reflexivity. Qed.

Lemma phase_system_error ch t :
  phase_of (PostMessage ch (system_error_text t)) = Some FAILED.
Proof. reflexivity. Qed.

Lemma phase_success self ch q url plan :
  phase_of (PostMessage ch (success_message self q url plan)) = Some DONE.
Proof. reflexivity. Qed.

Lemma phase_starting q t : phase_of (Respond (starting_text q) t) = Some RECEIVED.
Proof. reflexivity. Qed.

(** C10: when the query of the workspace database is answered with a
    status other than 200, the extraction returns the not-found value,
    the very value it returns when the query succeeds and no page matches;
    the job then ends in its extraction phase with the "Client not found"
    message, and sends no system-error message. *)
Theorem query_failure_reported_as_not_found self
    (client_name channel_id user_id : string) (w : World) (st : state)
    (resp : response) :
  http_post w (length (calls st))
    (query_request (notion_extractor self) (notion_database_id self))
  = Ok resp ->
  status_code resp <> 200 ->
  fst (Notion.extract_client_data (notion_extractor self)
         (notion_database_id self) client_name w st)
  = Ok (Notion.not_found client_name) /\
  fst (Notion.extract_client_data (notion_extractor self)
         (notion_database_id self) client_name (workspace []) st)
  = Ok (Notion.not_found client_name) /\
  fst (process_pitch_plan self client_name channel_id user_id w st) = Ok tt /\
  new_messages st
    (snd (process_pitch_plan self client_name channel_id user_id w st))
  = [ PostMessage channel_id (step1_text client_name);
      PostMessage channel_id (not_found_text client_name) ] /\
  map phase_of
    (new_messages st
       (snd (process_pitch_plan self client_name channel_id user_id w st)))
  = [Some EXTRACTING; Some FAILED].
Proof.
  intros Hp Hs. apply Z.eqb_neq in Hs.
  assert (E : forall s, calls s = calls st ->
            Notion.extract_client_data (notion_extractor self)
              (notion_database_id self) client_name w s
            = (Ok (Notion.not_found client_name),
               logged s (query_request (notion_extractor self)
                           (notion_database_id self)))).
  { intros s Hc. rewrite extract_client_data_run, Hc, Hp.
    unfold found. rewrite Hs. reflexivity. }
  assert (N : new_messages st
                (snd (process_pitch_plan self client_name channel_id user_id
                        w st))
              = [ PostMessage channel_id (step1_text client_name);
                  PostMessage channel_id (not_found_text client_name) ]).
  { rewrite process_pitch_plan_run. cbn [snd]. unfold job_end.
    rewrite E by reflexivity. cbn [Py.has_key Py.lookup Notion.not_found].
    cbn. apply new_messages_app. cbn [posting logged outbox].
    now rewrite <- app_assoc. }
  repeat split.
  - now rewrite E.
  - now rewrite process_pitch_plan_run.
  - exact N.
  - rewrite N. reflexivity.
Qed.

Lemma query_failure_reported_as_not_found_witness :
  new_messages initial
    (snd (process_pitch_plan demo_bot "Acme" "C042" "U7" unavailable_world
            initial))
  = [ PostMessage "C042" (step1_text "Acme");
      PostMessage "C042" (not_found_text "Acme") ].
Proof.
  apply (query_failure_reported_as_not_found demo_bot "Acme" "C042" "U7"
           unavailable_world initial
           {| status_code := 503; json := Raise JSONDecodeError |}).
  - reflexivity.
  - simpl. lia.
Defined.

Example happy_job :
  map phase_of
    (outbox (snd (handle_start_pitch demo_bot " acme " "C042" "U7" happy_world
                    initial)))
  = map Some success_path.
Proof. vm_compute. reflexivity. Qed.

Example happy_calls :
  map url
    (calls (snd (handle_start_pitch demo_bot " acme " "C042" "U7" happy_world
                   initial)))
  = [ "https://api.notion.com/v1/databases/db1/query";
      Pipeline.openai_url; Pipeline.anthropic_url; Pipeline.openai_url ].
Proof. vm_compute. reflexivity. Qed.

Example malformed_job :
  map phase_of
    (outbox (snd (handle_start_pitch demo_bot "acme" "C042" "U7"
                    (workspace [acme_page]) initial)))
  = map Some [RECEIVED; EXTRACTING; GENERATING; FAILED].
Proof. vm_compute. reflexivity. Qed.

End JobRunner.

(** ** More on extraction *)

Section ExtractionMore.

Import Str Notion.

Lemma rmap_multi_select (names : list string) :
  rmap (fun ms => Py.get ms "name" (PStr EmptyString))
       (map (fun n => PDict [ ("name", PStr n) ]) names)
  = Ok (map PStr names).
Proof.
  induction names as [|n names IH]; [reflexivity|].
  cbn [map rmap]. rewrite IH. reflexivity.
Qed.

Lemma rmap_rich_text (parts : list string) :
  rmap (fun rt => (text <- Py.get rt "text" (PDict []) ;;
                   Py.get text "content" (PStr EmptyString))%res)
       (map (fun t => PDict [ ("text", PDict [ ("content", PStr t) ]) ]) parts)
  = Ok (map PStr parts).
Proof.
  induction parts as [|t parts IH]; [reflexivity|].
  cbn [map rmap]. rewrite IH. reflexivity.
Qed.

Lemma strings_of_texts (parts : list string) :
  Py.strings (map PStr parts) = Ok parts.
Proof.
  induction parts as [|t parts IH]; [reflexivity|].
  cbn [map Py.strings]. now rewrite IH.
Qed.

Lemma extract_multi_select_names (names : list string) :
  extract_multi_select (multi_select_prop names) = Ok (PList (map PStr names)).
Proof.
  unfold extract_multi_select, multi_select_prop. cbn.
  now rewrite rmap_multi_select.
Qed.

Lemma extract_rich_text_joins (parts : list string) :
  extract_rich_text (rich_text_prop parts) = Ok (PStr (join " " parts)).
Proof.
  unfold extract_rich_text, rich_text_prop. cbn.
  rewrite rmap_rich_text. cbn. unfold Py.join.
  now rewrite strings_of_texts.
Qed.

(** X1: from a page in Notion's shape the parse recovers every field:
    the name, the names of the selects, the list of the service names,
    the links as they are (a null link stays [None]), and the owners with
    their text segments joined by single spaces. *)
Theorem parse_notion_page (name status : string) (services : list string)
    (category : string)
    (qualification_call discovery_call discovery_notes pitch_strategy
       pitch_deck : pyval)
    (so_owner sales_owner : list string) :
  parse_client_page
    (notion_page name status services category qualification_call
       discovery_call discovery_notes pitch_strategy pitch_deck so_owner
       sales_owner)
  = Ok [ ("client_name", PStr name);
         ("status", PStr status);
         ("services", PList (map PStr services));
         ("category", PStr category);
         ("qualification_call", qualification_call);
         ("discovery_call", discovery_call);
         ("discovery_notes", discovery_notes);
         ("pitch_strategy", pitch_strategy);
         ("pitch_deck", pitch_deck);
         ("so_owner", PStr (join " " so_owner));
         ("sales_owner", PStr (join " " sales_owner)) ].
Proof.
  unfold parse_client_page, notion_page, page_of, field.
  cbn [Py.get Py.dget Py.lookup String.eqb Ascii.eqb Bool.eqb rbind].
  rewrite extract_multi_select_names, !extract_rich_text_joins.
  reflexivity.
Qed.

Lemma Contains_label (pre label v rest : string) :
  Contains (pre ++ label ++ v ++ rest) (label ++ v).
Proof. exists pre, rest. now rewrite append_assoc. Qed.

Lemma format_client_info_lines (client_data : dict)
    (label key default : string) :
  In (label, key, default) info_lines ->
  Contains (Pipeline.format_client_info client_data)
    (label ++ Py.str (Py.dget client_data key (PStr default))).
Proof.
  unfold info_lines, Pipeline.format_client_info. intros Hin.
  repeat (destruct Hin as [Hin|Hin];
          [ injection Hin as <- <- <-;
            first [ apply (Contains_label nl)
                  | do 2 apply Contains_skip; apply (Contains_label nl)
                  | do 4 apply Contains_skip; apply (Contains_label nl)
                  | do 6 apply Contains_skip; apply (Contains_label nl)
                  | do 8 apply Contains_skip; apply (Contains_label nl)
                  | do 10 apply Contains_skip; apply (Contains_label nl)
                  | do 12 apply Contains_skip;
                    apply (Contains_label
                             (nl ++ nl ++ "AVAILABLE DATA SOURCES:" ++ nl))
                  | do 14 apply Contains_skip; apply (Contains_label nl)
                  | do 16 apply Contains_skip; apply (Contains_label nl)
                  | do 18 apply Contains_skip; apply (Contains_label nl) ]
          | ]).
  destruct Hin.
Qed.

(** X2: only the first text segment of a title is the name of a page.
    The lookup tests the query against that segment alone, both lowered
    by [str.lower], and the parse stores that segment as the client name,
    whatever the later segments are. *)
Theorem title_is_first_segment (py_lower : string -> string) (props : dict)
    (first : string) (others : list string) (query : string) :
  Py.lookup "Name" props = Some (segmented_title (first :: others)) ->
  result_title (page_of props) = Ok (PStr first) /\
  search py_lower query [page_of props]
  = Ok (if str_in (lower py_lower query) (lower py_lower first)
        then page_of props else PNone) /\
  (forall rec,
     parse_client_page (page_of props) = Ok rec ->
     Py.lookup "client_name" rec = Some (PStr first)).
Proof.
  intros Hn.
  assert (Ht : result_title (page_of props) = Ok (PStr first)).
  { unfold result_title, page_of. cbn. unfold Py.dget. rewrite Hn.
    reflexivity. }
  split; [exact Ht|]. split.
  - cbn [search]. rewrite Ht. cbn [rbind Py.lower].
    destruct (str_in (lower py_lower query) (lower py_lower first));
      reflexivity.
  - intros rec Hp. eapply parse_client_page_name; eassumption.
Qed.

Lemma title_is_first_segment_witness :
  search ascii_lower "corp"
    [page_of [ ("Name", segmented_title ["Acme "; "Corp"]) ]]
  = Ok PNone.
Proof.
  apply (title_is_first_segment ascii_lower
           [ ("Name", segmented_title ["Acme "; "Corp"]) ] "Acme " ["Corp"]
           "corp").
  reflexivity.
Defined.

(** X3: an extractor given a dictionary whose type is not the one it
    reads returns its empty value, whatever else the dictionary holds;
    given a value that is not a dictionary it raises [AttributeError]. *)
Theorem extractors_on_other_types (extract : pyval -> result pyval)
    (type : string) (empty : pyval) :
  In (extract, type, empty) extractors ->
  (forall d, Py.eq_str (Py.dget d "type" PNone) type = false ->
             extract (PDict d) = Ok empty) /\
  (forall v, (forall d, v <> PDict d) -> extract v = Raise AttributeError).
Proof.
  intros Hin.
  repeat (destruct Hin as [Hin|Hin];
          [ injection Hin as <- <- <-; split;
            [ intros d Hd;
              unfold extract_title, extract_rich_text, extract_select,
                extract_multi_select, extract_url;
              cbn [Py.get rbind]; rewrite Hd; reflexivity
            | intros v Hv; destruct v; try reflexivity;
              now elim (Hv d) ]
          | ]).
  destruct Hin.
Qed.

Lemma extractors_on_other_types_witness :
  extract_select (PDict [ ("type", PStr "status");
                          ("status", PDict [ ("name", PStr "Active") ]) ])
  = Ok (PStr EmptyString).
Proof.
  apply (extractors_on_other_types extract_select "select" (PStr EmptyString)).
  - simpl. auto.
  - reflexivity.
Defined.

(** X4: a link property that Notion reports as null gives the field the
    value [None], not the empty text, and the client information of the
    prompt then shows the word "None" after the label of the link. *)
Theorem null_link_is_None (page : pyval) (props rec d : dict)
    (key prop label : string) :
  parse_client_page page = Ok rec ->
  Py.get page "properties" (PDict []) = Ok (PDict props) ->
  In (key, prop, label) link_fields ->
  Py.lookup prop props = Some (PDict d) ->
  Py.lookup "type" d = Some (PStr "url") ->
  Py.lookup "url" d = Some PNone ->
  Py.lookup key rec = Some PNone /\
  Contains (Pipeline.format_client_info rec) (label ++ "None").
Proof.
  unfold parse_client_page. intros H Hp Hin Hl Ht Hu.
  rewrite Hp in H. cbn [rbind] in H. bind_inv H. injection H as <-.
  repeat (destruct Hin as [Hin|Hin];
          [ injection Hin as <- <- <-;
            repeat match goal with
                   | E : field _ (PDict props) _ = Ok _ |- _ =>
                       unfold field, Py.get, Py.dget in E;
                       first [ rewrite Hl in E; cbn [rbind] in E;
                               unfold extract_url, Py.get, Py.dget in E;
                               rewrite Ht in E; cbn in E; rewrite Hu in E;
                               injection E as <-
                             | clear E ]
                   end;
            split; [reflexivity|];
            match goal with
            | |- Contains (Pipeline.format_client_info ?r) (?l ++ _) =>
                match goal with
                | |- context [(?k, PNone)] =>
                    apply (format_client_info_lines r l k "N/A");
                    simpl; auto 12
                end
            end
          | ]).
  destruct Hin.
Qed.

Lemma null_link_is_None_witness :
  Py.lookup "discovery_call" acme_record = Some PNone /\
  Contains (Pipeline.format_client_info acme_record) "- Discovery Call: None".
Proof.
  apply (null_link_is_None acme_page
           [ ("Name", title_prop "Acme Corp");
             ("Status", select_prop "Active");
             ("Services", multi_select_prop ["Media"; "Creative"]);
             ("Category", select_prop "Retail");
             ("Qualification Call",
              url_prop (PStr "https://calls.example.com/q1"));
             ("Discovery Call", url_prop PNone);
             ("Pitch", url_prop (PStr acme_deck));
             ("SO", rich_text_prop ["Dana"; "Lee"]) ]
           acme_record
           [ ("type", PStr "url"); ("url", PNone) ]
           "discovery_call" "Discovery Call" "- Discovery Call: ");
    try reflexivity.
  simpl. auto.
Defined.

Lemma str_in_empty (h : string) : str_in EmptyString h = true.
Proof. destruct h; reflexivity. Qed.

(** X5: the empty query matches every name, so the lookup returns the
    first listed page as soon as that page has a name that is a text,
    whichever pages follow; the extraction then parses that page. *)
Theorem empty_query_takes_first_page self database_id (w : World) (st : state)
    (resp : response) (body : dict) (page : pyval) (pages : list pyval) :
  http_post w (length (calls st)) (query_request self database_id) = Ok resp ->
  status_code resp = 200 ->
  json resp = Ok (PDict body) ->
  Py.lookup "results" body = Some (PList (page :: pages)) ->
  Titled page ->
  fst (find_client_page self database_id EmptyString w st) = Ok page /\
  (Py.truthy page = true ->
   fst (extract_client_data self database_id EmptyString w st)
   = parse_client_page page).
Proof.
  intros Hp Hs Hj Hl [name Hn].
  assert (Hf : found w EmptyString
                 (http_post w (length (calls st))
                    (query_request self database_id)) = Ok page).
  { unfold found. rewrite Hp, Hs, Hj. cbn [Z.eqb Pos.eqb rbind Py.get].
    unfold Py.dget. rewrite Hl.
    cbn [rbind Py.iter search]. rewrite Hn. cbn [rbind Py.lower lower].
    now rewrite str_in_empty. }
  split.
  - rewrite find_client_page_run. exact Hf.
  - intros T. rewrite extract_client_data_run. cbn [fst].
    now rewrite Hf, T.
Qed.

Lemma empty_query_takes_first_page_witness :
  fst (find_client_page demo_extractor "db1" EmptyString
         (workspace [globex_page; acme_page]) initial) = Ok globex_page.
Proof.
  apply (empty_query_takes_first_page demo_extractor "db1"
           (workspace [globex_page; acme_page]) initial
           {| status_code := 200;
              json := Ok (PDict [ ("object", PStr "list");
                                  ("results",
                                   PList [globex_page; acme_page]) ]) |}
           [ ("object", PStr "list");
             ("results", PList [globex_page; acme_page]) ]
           globex_page [acme_page]); try reflexivity.
  exists "Globex". reflexivity.
Defined.

(** X6: what the extraction returns is either the not-found value, whose
    only key is "error", or a record with the eleven fields and no key
    "error"; so the test of the job runner for the key "error" tells the
    two apart exactly. *)
Theorem extraction_result_shape self database_id client_name
    (w : World) (st : state) (rec : dict) :
  fst (extract_client_data self database_id client_name w st) = Ok rec ->
  (rec = not_found client_name /\ Py.has_key "error" rec = true)
  \/
  (map fst rec = record_fields /\ Py.has_key "error" rec = false).
Proof.
  rewrite extract_client_data_run. cbn [fst]. intros H.
  destruct (found w client_name _) as [page|]; [|discriminate H].
  destruct (Py.truthy page).
  - right. pose proof (parse_client_page_fields _ _ H) as Hf.
    split; [exact Hf|].
    unfold parse_client_page in H. bind_inv H. injection H as <-. reflexivity.
  - left. injection H as <-. split; reflexivity.
Qed.

Lemma extraction_result_shape_witness :
  (bare_record = not_found "acme" /\ Py.has_key "error" bare_record = true)
  \/
  (map fst bare_record = record_fields /\
   Py.has_key "error" bare_record = false).
Proof.
  apply (extraction_result_shape demo_extractor "db1" "acme"
           (workspace [bare_page]) initial bare_record).
  reflexivity.
Defined.

End ExtractionMore.

(** ** More on the pipeline *)

Section PipelineMore.

Import Str Pipeline.

(** X7: what the orchestrator returns is either the failure value of one
    stage, whose only key is "error" and whose text names that stage, or
    a bundle that has no key "error" and is stamped with the time of the
    clock; so the test of the job runner for the key "error" tells the
    two apart exactly. *)
Theorem generation_result_shape self (client_data : dict) (w : World)
    (st : state) (d : dict) :
  fst (generate_pitch_plan self client_data w st) = Ok d ->
  (exists s,
     d = [ ("error", PStr ("Failed at " ++ stage_words s ++ " step")) ] /\
     Py.has_key "error" d = true)
  \/
  (exists v1 v2 v3,
     d = bundle client_data v1 v2 v3 (strftime w) /\
     Py.has_key "error" d = false /\
     Py.lookup "generated_at" d = Some (PStr (strftime w))).
Proof.
  rewrite generate_pitch_plan_eq. intros H.
  destruct (fst (run1 self client_data w st)) as [v1|]; [|discriminate H].
  destruct (Py.truthy v1).
  2:{ left. exists StrategicAnalysis. injection H as <-. split; reflexivity. }
  destruct (fst (run2 self client_data w st v1)) as [v2|]; [|discriminate H].
  destruct (Py.truthy v2).
  2:{ left. exists NarrativeDevelopment. injection H as <-.
      split; reflexivity. }
  destruct (fst (run3 self client_data w st v1 v2)) as [v3|];
    [|discriminate H].
  destruct (Py.truthy v3).
  2:{ left. exists PlanIntegration. injection H as <-. split; reflexivity. }
  right. exists v1, v2, v3. injection H as <-. repeat split.
Qed.

Lemma generation_result_shape_witness :
  (exists s,
     failure StrategicAnalysis
     = [ ("error", PStr ("Failed at " ++ stage_words s ++ " step")) ] /\
     Py.has_key "error" (failure StrategicAnalysis) = true)
  \/
  (exists v1 v2 v3,
     failure StrategicAnalysis
     = bundle acme_min_record v1 v2 v3 (strftime unavailable_world) /\
     Py.has_key "error" (failure StrategicAnalysis) = false /\
     Py.lookup "generated_at" (failure StrategicAnalysis)
     = Some (PStr (strftime unavailable_world))).
Proof.
  apply (generation_result_shape demo_generator acme_min_record
           unavailable_world initial (failure StrategicAnalysis)).
  reflexivity.
Defined.

(** X8: for a field the record lacks, the client information shows the
    label followed by "Unknown", or by "N/A" for a link; and for a record
    without a client name the prompts of stages 2 and 3 speak of
    "the client" and of "Client". *)
Theorem prompts_on_missing_fields (client_data : dict) :
  (forall label key default,
     In (label, key, default) info_lines ->
     Py.lookup key client_data = None ->
     Contains (format_client_info client_data) (label ++ default)) /\
  (Py.lookup "client_name" client_data = None ->
   forall sf nar,
     Contains (narrative_prompt sf client_data) "CLIENT: the client" /\
     Contains (narrative_prompt sf client_data) "Acknowledge the client" /\
     Contains (plan_prompt sf nar client_data) "CLIENT: Client").
Proof.
  split.
  - intros label key default Hin Hl.
    pose proof (format_client_info_lines client_data label key default Hin)
      as H.
    unfold Py.dget in H. now rewrite Hl in H.
  - intros Hl sf nar. unfold narrative_prompt, plan_prompt, Py.dget.
    rewrite Hl. repeat split.
    + do 2 apply Contains_skip.
      apply (Contains_label (nl ++ nl) "CLIENT: " "the client").
    + do 4 apply Contains_skip.
      apply (Contains_label
               (nl ++ nl ++ "Create exactly 3 paragraphs:" ++ nl ++ nl
                ++ "SITUATION (Paragraph 1): ")
               "Acknowledge " "the client").
    + do 4 apply Contains_skip.
      apply (Contains_label (nl ++ nl) "CLIENT: " "Client").
Qed.

Lemma prompts_on_missing_fields_witness :
  Contains (format_client_info acme_min_record) "STATUS: Unknown".
Proof.
  apply (proj1 (prompts_on_missing_fields acme_min_record)
           "STATUS: " "status" "Unknown").
  - simpl. auto.
  - reflexivity.
Defined.

(** X9: on a 200 response the chat adapter returns the content of the
    message of the first choice, and the single-prompt adapter the text
    of the first content block, whatever follows in the list; an empty
    list makes them raise [IndexError], and a body that is not JSON makes
    them raise the exception of the decoder. *)
Theorem adapters_read_first_item self messages prompt model temperature
    max_tokens (w : World) (st : state) (resp : response) :
  http_post w (length (calls st))
    (openai_request self messages model temperature max_tokens) = Ok resp ->
  http_post w (length (calls st))
    (anthropic_request self prompt model max_tokens temperature) = Ok resp ->
  status_code resp = 200 ->
  let chat := fst (openai_chat_completion self messages model temperature
                     max_tokens w st) in
  let single := fst (anthropic_completion self prompt model max_tokens
                       temperature w st) in
  (forall body choice others msg v,
     json resp = Ok (PDict body) ->
     Py.lookup "choices" body = Some (PList (PDict choice :: others)) ->
     Py.lookup "message" choice = Some (PDict msg) ->
     Py.lookup "content" msg = Some v ->
     chat = Ok v) /\
  (forall body block others v,
     json resp = Ok (PDict body) ->
     Py.lookup "content" body = Some (PList (PDict block :: others)) ->
     Py.lookup "text" block = Some v ->
     single = Ok v) /\
  (forall body,
     json resp = Ok (PDict body) ->
     Py.lookup "choices" body = Some (PList []) -> chat = Raise IndexError) /\
  (forall body,
     json resp = Ok (PDict body) ->
     Py.lookup "content" body = Some (PList []) -> single = Raise IndexError) /\
  (forall e, json resp = Raise e -> chat = Raise e /\ single = Raise e).
Proof.
  intros Ho Ha Hs. cbv zeta.
  rewrite openai_chat_completion_run, anthropic_completion_run.
  cbv zeta. rewrite Ho, Ha. unfold adapter_result. rewrite Hs.
  cbn [Z.eqb Pos.eqb fst]. unfold openai_text, anthropic_text.
  split; [|split; [|split; [|split]]].
  - intros body choice others msg v Hj Hc Hm Hv. rewrite Hj. cbn.
    rewrite Hc. cbn. rewrite Hm. cbn. now rewrite Hv.
  - intros body block others v Hj Hc Hv. rewrite Hj. cbn.
    rewrite Hc. cbn. now rewrite Hv.
  - intros body Hj Hc. rewrite Hj. cbn. now rewrite Hc.
  - intros body Hj Hc. rewrite Hj. cbn. now rewrite Hc.
  - intros e Hj. rewrite Hj. split; reflexivity.
Qed.

Lemma adapters_read_first_item_witness :
  fst (openai_chat_completion demo_generator [] "gpt-4" (1 # 10)%Q 2500
         empty_text_world initial) = Ok (PStr EmptyString).
Proof.
  apply (proj1 (adapters_read_first_item demo_generator [] "hello" "gpt-4"
                  (1 # 10)%Q 2500 empty_text_world initial
                  {| status_code := 200;
                     json := Ok (chat_body (PStr EmptyString)) |}
                  eq_refl eq_refl eq_refl)
           [ ("choices", PList [ PDict [ ("message",
               PDict [ ("role", PStr "assistant");
                       ("content", PStr EmptyString) ]) ] ]) ]
           [ ("message", PDict [ ("role", PStr "assistant");
                                 ("content", PStr EmptyString) ]) ]
           []
           [ ("role", PStr "assistant"); ("content", PStr EmptyString) ]
           (PStr EmptyString));
    reflexivity.
Defined.

(** X10: when the chat backend answers the first stage with a completion
    whose content is null, empty, or any other false value, the
    orchestrator raises nothing: it returns the failure value of the
    strategic analysis after that one request. *)
Theorem null_content_fails_the_stage self (client_data : dict) (w : World)
    (st : state) (resp : response) (body choice msg : dict)
    (others : list pyval) (v : pyval) :
  http_post w (length (calls st)) (strategic_request self client_data)
  = Ok resp ->
  status_code resp = 200 ->
  json resp = Ok (PDict body) ->
  Py.lookup "choices" body = Some (PList (PDict choice :: others)) ->
  Py.lookup "message" choice = Some (PDict msg) ->
  Py.lookup "content" msg = Some v ->
  Py.truthy v = false ->
  fst (generate_pitch_plan self client_data w st)
  = Ok (failure StrategicAnalysis) /\
  new_calls st (snd (generate_pitch_plan self client_data w st))
  = [strategic_request self client_data].
Proof.
  intros Hp Hs Hj Hc Hm Hv Ht.
  assert (H1 : run1 self client_data w st
               = (Ok v, logged st (strategic_request self client_data))).
  { rewrite run1_eq, Hp. unfold adapter_result. rewrite Hs.
    cbn [Z.eqb Pos.eqb]. unfold openai_text. rewrite Hj. cbn.
    rewrite Hc. cbn. rewrite Hm. cbn. now rewrite Hv. }
  rewrite generate_pitch_plan_eq, H1. cbn [fst snd]. rewrite Ht.
  cbn [fst snd]. split; [reflexivity | apply new_calls_1].
Qed.

Lemma null_content_fails_the_stage_witness :
  fst (generate_pitch_plan demo_generator acme_min_record null_text_world
         initial) = Ok (failure StrategicAnalysis) /\
  new_calls initial
    (snd (generate_pitch_plan demo_generator acme_min_record null_text_world
            initial))
  = [strategic_request demo_generator acme_min_record].
Proof.
  apply (null_content_fails_the_stage demo_generator acme_min_record
           null_text_world initial
           {| status_code := 200; json := Ok (chat_body PNone) |}
           [ ("choices", PList [ PDict [ ("message",
               PDict [ ("role", PStr "assistant"); ("content", PNone) ]) ] ]) ]
           [ ("message", PDict [ ("role", PStr "assistant");
                                 ("content", PNone) ]) ]
           [ ("role", PStr "assistant"); ("content", PNone) ]
           [] PNone);
    reflexivity.
Defined.

(** The requests of a run are those of its stages, in their order, up to
    the stage at which the run stops. *)
Lemma generate_pitch_plan_calls self (client_data : dict) (w : World)
    (st : state) :
  let new := new_calls st (snd (generate_pitch_plan self client_data w st)) in
  new = [strategic_request self client_data]
  \/ (exists v1,
        new = [strategic_request self client_data;
               narrative_request self client_data v1])
  \/ (exists v1 v2,
        new = [strategic_request self client_data;
               narrative_request self client_data v1;
               plan_request self client_data v1 v2]).
Proof.
  cbv zeta. rewrite generate_pitch_plan_eq.
  assert (S1 : snd (run1 self client_data w st) =
               logged st (strategic_request self client_data))
    by now rewrite run1_eq.
  assert (S2 : forall v1, snd (run2 self client_data w st v1) =
               logged (logged st (strategic_request self client_data))
                 (narrative_request self client_data v1))
    by (intros v1; now rewrite run2_eq, S1).
  assert (S3 : forall v1 v2, snd (run3 self client_data w st v1 v2) =
               logged (logged (logged st (strategic_request self client_data))
                         (narrative_request self client_data v1))
                 (plan_request self client_data v1 v2))
    by (intros v1 v2; now rewrite run3_eq, S2).
  destruct (fst (run1 self client_data w st)) as [v1|];
    [|left; cbn [snd]; rewrite S1; apply new_calls_1].
  destruct (Py.truthy v1);
    [|left; cbn [snd]; rewrite S1; apply new_calls_1].
  destruct (fst (run2 self client_data w st v1)) as [v2|];
    [|right; left; exists v1; cbn [snd]; rewrite S2; apply new_calls_2].
  destruct (Py.truthy v2);
    [|right; left; exists v1; cbn [snd]; rewrite S2; apply new_calls_2].
  right. right. exists v1, v2.
  destruct (fst (run3 self client_data w st v1 v2)) as [v3|];
    [destruct (Py.truthy v3)|]; cbn [snd]; rewrite S3; apply new_calls_3.
Qed.

Lemma generate_pitch_plan_addressed self (client_data : dict) (w : World)
    (st : state) (r : request) :
  In r (new_calls st (snd (generate_pitch_plan self client_data w st))) ->
  addressed self r.
Proof.
  destruct (generate_pitch_plan_calls self client_data w st)
    as [E | [(v1 & E) | (v1 & v2 & E)]]; rewrite E; cbn [In]; intros H;
    repeat (destruct H as [<-|H]; [|]); try contradiction;
    first [ left; split; reflexivity | right; split; reflexivity ].
Qed.

End PipelineMore.

(** ** More on the job runner *)

Section JobMore.

Import Str Bot.

Lemma Blind_bind {A B} (c : M A) (k : A -> M B) :
  Blind c -> (forall a, Blind (k a)) -> Blind (bind c k).
Proof.
  intros Hc Hk w st m. unfold bind. rewrite Hc.
  destruct (c w st) as [[a|e] s]; cbn [fst snd]; [apply Hk | reflexivity].
Qed.

Lemma Blind_ret {A} (a : A) : Blind (ret a).
Proof. intros w st m. reflexivity. Qed.

Lemma Blind_lift {A} (r : result A) : Blind (lift r).
Proof. intros w st m. reflexivity. Qed.

Lemma Blind_get_world : Blind get_world.
Proof. intros w st m. reflexivity. Qed.

Lemma Blind_requests_post (r : request) : Blind (requests_post r).
Proof. intros w st m. reflexivity. Qed.

Lemma Blind_extract_client_data self database_id client_name :
  Blind (Notion.extract_client_data self database_id client_name).
Proof.
  unfold Notion.extract_client_data, Notion.find_client_page.
  apply Blind_bind.
  - apply Blind_bind; [apply Blind_requests_post|].
    intros resp. destruct (status_code resp =? 200); [|apply Blind_ret].
    apply Blind_bind; [apply Blind_get_world|].
    intros w. apply Blind_lift.
  - intros page. destruct (negb (Py.truthy page));
      [apply Blind_ret | apply Blind_lift].
Qed.

Lemma Blind_openai_chat_completion self messages model temperature max_tokens :
  Blind (Pipeline.openai_chat_completion self messages model temperature
           max_tokens).
Proof.
  unfold Pipeline.openai_chat_completion.
  apply Blind_bind; [apply Blind_requests_post|].
  intros resp. destruct (status_code resp =? 200);
    [apply Blind_lift | apply Blind_ret].
Qed.

Lemma Blind_anthropic_completion self prompt model max_tokens temperature :
  Blind (Pipeline.anthropic_completion self prompt model max_tokens
           temperature).
Proof.
  unfold Pipeline.anthropic_completion.
  apply Blind_bind; [apply Blind_requests_post|].
  intros resp. destruct (status_code resp =? 200);
    [apply Blind_lift | apply Blind_ret].
Qed.

Lemma Blind_generate_pitch_plan self client_data :
  Blind (Pipeline.generate_pitch_plan self client_data).
Proof.
  unfold Pipeline.generate_pitch_plan, Pipeline.strategic_analysis,
    Pipeline.narrative_development, Pipeline.plan_integration.
  apply Blind_bind; [apply Blind_openai_chat_completion|].
  intros v1. destruct (negb (Py.truthy v1)); [apply Blind_ret|].
  apply Blind_bind; [apply Blind_anthropic_completion|].
  intros v2. destruct (negb (Py.truthy v2)); [apply Blind_ret|].
  apply Blind_bind; [apply Blind_openai_chat_completion|].
  intros v3. destruct (negb (Py.truthy v3)); [apply Blind_ret|].
  apply Blind_bind; [apply Blind_get_world|].
  intros w. apply Blind_ret.
Qed.

(** The end of a job, with the extraction and the generation run from
    the states in which no message has been sent yet. *)
Lemma job_end_eq self client_name channel_id (w : World) (st : state) :
  let say s text := posting s (PostMessage channel_id text) in
  let fault s e := say s (system_error_text (exc_str w e)) in
  let query := query_request (notion_extractor self) (notion_database_id self) in
  let s1 := say (logged st query) (step1_text client_name) in
  job_end self client_name channel_id w st =
  match fst (Notion.extract_client_data (notion_extractor self)
               (notion_database_id self) client_name w st) with
  | Raise e => fault s1 e
  | Ok client_data =>
      if Py.has_key "error" client_data
      then say s1 (not_found_text client_name)
      else
        let g := Pipeline.generate_pitch_plan (llm_generator self) client_data
                   w (logged st query) in
        let s2 := say (say (snd g) (step1_text client_name)) step2_text in
        match fst g with
        | Raise e => fault s2 e
        | Ok pitch_plan_data =>
            if Py.has_key "error" pitch_plan_data then
              match Py.item (PDict pitch_plan_data) "error" with
              | Ok error => say s2 (generation_failed_text error)
              | Raise e => fault s2 e
              end
            else
              match create_pitch_plan_document w pitch_plan_data
                      (team_emails self) with
              | Raise e => fault (say s2 step3_text) e
              | Ok document_url =>
                  if Py.truthy document_url
                  then say (say s2 step3_text)
                         (success_message self client_name document_url
                            pitch_plan_data)
                  else say (say s2 step3_text) document_failed_text
              end
        end
  end.
Proof.
  cbv zeta. unfold job_end.
  rewrite Blind_extract_client_data.
  assert (S : snd (Notion.extract_client_data (notion_extractor self)
                     (notion_database_id self) client_name w st)
              = logged st (query_request (notion_extractor self)
                             (notion_database_id self)))
    by now rewrite extract_client_data_run.
  rewrite S.
  destruct (fst (Notion.extract_client_data _ _ _ w st)) as [cd|e];
    [|reflexivity].
  destruct (Py.has_key "error" cd); [reflexivity|].
  rewrite !Blind_generate_pitch_plan.
  destruct (fst (Pipeline.generate_pitch_plan _ cd w _)); reflexivity.
Qed.

Lemma posting_calls (st : state) (m : sent) : calls (posting st m) = calls st.
Proof. reflexivity. Qed.

Lemma new_calls_posting (st st' : state) (m : sent) :
  new_calls st (posting st' m) = new_calls st st'.
Proof. reflexivity. Qed.

Ltac job_messages :=
  apply new_messages_app; cbn [posting logged outbox];
  rewrite <- ?app_assoc; reflexivity.

(** X11: when the transport fails on the query of the workspace database,
    the job does not raise: after the extraction notice it posts the
    system-error message with the text of the exception, and it makes no
    request to a model provider. *)
Theorem query_fault_is_reported self
    (client_name channel_id user_id : string) (w : World) (st : state)
    (e : exn) :
  http_post w (length (calls st))
    (query_request (notion_extractor self) (notion_database_id self))
  = Raise e ->
  let run := process_pitch_plan self client_name channel_id user_id w st in
  fst run = Ok tt /\
  new_messages st (snd run)
  = [ PostMessage channel_id (step1_text client_name);
      PostMessage channel_id ("❌ **System Error:** " ++ exc_str w e) ] /\
  new_calls st (snd run)
  = [ query_request (notion_extractor self) (notion_database_id self) ].
Proof.
  intros Hp. cbv zeta. rewrite process_pitch_plan_run, job_end_eq.
  cbv zeta. rewrite extract_client_data_run, Hp. cbn [fst snd found].
  split; [reflexivity|]. split.
  - job_messages.
  - rewrite !new_calls_posting. apply new_calls_1.
Qed.

Lemma query_fault_is_reported_witness :
  new_messages initial
    (snd (process_pitch_plan demo_bot "Acme" "C042" "U7" offline_world
            initial))
  = [ PostMessage "C042" (step1_text "Acme");
      PostMessage "C042" ("❌ **System Error:** " ++ "ConnectionError") ].
Proof.
  apply (query_fault_is_reported demo_bot "Acme" "C042" "U7" offline_world
           initial (External "ConnectionError")).
  reflexivity.
Defined.

(** X12: when the extraction returns the not-found value, the only
    request of the job is the query of the workspace database: no model
    provider is called, and the job ends with the "Client not found"
    message. *)
Theorem not_found_calls_no_model self
    (client_name channel_id user_id : string) (w : World) (st : state)
    (client_data : dict) :
  fst (Notion.extract_client_data (notion_extractor self)
         (notion_database_id self) client_name w st) = Ok client_data ->
  Py.has_key "error" client_data = true ->
  let run := process_pitch_plan self client_name channel_id user_id w st in
  new_calls st (snd run)
  = [ query_request (notion_extractor self) (notion_database_id self) ] /\
  new_messages st (snd run)
  = [ PostMessage channel_id (step1_text client_name);
      PostMessage channel_id (not_found_text client_name) ].
Proof.
  intros He Herr. cbv zeta. rewrite process_pitch_plan_run, job_end_eq.
  cbv zeta. rewrite He, Herr. cbn [snd]. split.
  - rewrite !new_calls_posting. apply new_calls_1.
  - job_messages.
Qed.

Lemma not_found_calls_no_model_witness :
  new_calls initial
    (snd (process_pitch_plan demo_bot "Initech" "C042" "U7"
            (workspace [globex_page; acme_page]) initial))
  = [ query_request demo_extractor "db1" ] /\
  new_messages initial
    (snd (process_pitch_plan demo_bot "Initech" "C042" "U7"
            (workspace [globex_page; acme_page]) initial))
  = [ PostMessage "C042" (step1_text "Initech");
      PostMessage "C042" (not_found_text "Initech") ].
Proof.
  apply (not_found_calls_no_model demo_bot "Initech" "C042" "U7"
           (workspace [globex_page; acme_page]) initial
           (Notion.not_found "Initech")); reflexivity.
Defined.

Lemma has_key_failure (s : Pipeline.stage) :
  Py.has_key "error" (Pipeline.failure s) = true.
Proof. destruct s; reflexivity. Qed.

Lemma item_failure (s : Pipeline.stage) :
  Py.item (PDict (Pipeline.failure s)) "error"
  = Ok (PStr ("Failed at " ++ stage_words s ++ " step")).
Proof. destruct s; reflexivity. Qed.

(** X13: when the orchestrator returns the failure value of a stage, the
    job ends after the generation notice with one message, which names
    that stage; when the orchestrator raises, that message is the
    system-error message with the text of the exception.  The
    publication notice is not sent. *)
Theorem generation_failure_is_named self
    (client_name channel_id user_id : string) (w : World) (st : state)
    (client_data : dict) :
  fst (Notion.extract_client_data (notion_extractor self)
         (notion_database_id self) client_name w st) = Ok client_data ->
  Py.has_key "error" client_data = false ->
  let query := query_request (notion_extractor self) (notion_database_id self) in
  let g := fst (Pipeline.generate_pitch_plan (llm_generator self) client_data
                  w (logged st query)) in
  let msgs := new_messages st
                (snd (process_pitch_plan self client_name channel_id user_id
                        w st)) in
  (forall s,
     g = Ok (Pipeline.failure s) ->
     msgs = [ PostMessage channel_id (step1_text client_name);
              PostMessage channel_id step2_text;
              PostMessage channel_id
                ("❌ **Generation failed:** Failed at " ++ stage_words s
                 ++ " step") ]) /\
  (forall e,
     g = Raise e ->
     msgs = [ PostMessage channel_id (step1_text client_name);
              PostMessage channel_id step2_text;
              PostMessage channel_id ("❌ **System Error:** " ++ exc_str w e) ]).
Proof.
  intros He Herr. cbv zeta. rewrite process_pitch_plan_run, job_end_eq.
  cbv zeta. rewrite He, Herr. cbn [snd].
  pose proof (generate_pitch_plan_outbox (llm_generator self) client_data w
                (logged st (query_request (notion_extractor self)
                              (notion_database_id self)))) as Ho.
  cbn [logged outbox] in Ho.
  split.
  - intros s Hg. rewrite Hg, has_key_failure, item_failure.
    apply new_messages_app. cbn [posting outbox].
    rewrite Ho, <- !app_assoc. reflexivity.
  - intros e Hg. rewrite Hg.
    apply new_messages_app. cbn [posting outbox].
    rewrite Ho, <- !app_assoc. reflexivity.
Qed.

Lemma generation_failure_is_named_witness :
  new_messages initial
    (snd (process_pitch_plan demo_bot "acme" "C042" "U7"
            (workspace [acme_page]) initial))
  = [ PostMessage "C042" (step1_text "acme");
      PostMessage "C042" step2_text;
      PostMessage "C042" ("❌ **System Error:** " ++ "error") ].
Proof.
  apply (proj2 (generation_failure_is_named demo_bot "acme" "C042" "U7"
                  (workspace [acme_page]) initial acme_record
                  eq_refl eq_refl)
           (KeyError (PStr "choices"))).
  reflexivity.
Defined.

(** X14: after a successful generation the job sends the publication
    notice and then exactly one message, decided by the document backend:
    the success message when it returns a true value, "Document creation
    failed" when it returns [None] or another false value, and the
    system-error message with the text of the exception when it raises. *)
Theorem publication_outcomes self
    (client_name channel_id user_id : string) (w : World) (st : state)
    (client_data pitch_plan_data : dict) :
  fst (Notion.extract_client_data (notion_extractor self)
         (notion_database_id self) client_name w st) = Ok client_data ->
  Py.has_key "error" client_data = false ->
  fst (Pipeline.generate_pitch_plan (llm_generator self) client_data w
         (logged st (query_request (notion_extractor self)
                       (notion_database_id self)))) = Ok pitch_plan_data ->
  Py.has_key "error" pitch_plan_data = false ->
  let published :=
    create_pitch_plan_document w pitch_plan_data (team_emails self) in
  let msgs := new_messages st
                (snd (process_pitch_plan self client_name channel_id user_id
                        w st)) in
  let notices := [ PostMessage channel_id (step1_text client_name);
                   PostMessage channel_id step2_text;
                   PostMessage channel_id step3_text ] in
  (forall url,
     published = Ok url -> Py.truthy url = true ->
     msgs = (notices ++ [ PostMessage channel_id
                            (success_message self client_name url
                               pitch_plan_data) ])%list) /\
  (forall url,
     published = Ok url -> Py.truthy url = false ->
     msgs = (notices ++ [ PostMessage channel_id
                            "❌ **Document creation failed**" ])%list) /\
  (forall e,
     published = Raise e ->
     msgs = (notices ++ [ PostMessage channel_id
                            ("❌ **System Error:** " ++ exc_str w e) ])%list).
Proof.
  intros He Herr Hg Hplan. cbv zeta.
  rewrite process_pitch_plan_run, job_end_eq.
  cbv zeta. rewrite He, Herr, Hg, Hplan. cbn [snd].
  pose proof (generate_pitch_plan_outbox (llm_generator self) client_data w
                (logged st (query_request (notion_extractor self)
                              (notion_database_id self)))) as Ho.
  cbn [logged outbox] in Ho.
  split; [|split].
  - intros url Hd Ht. rewrite Hd, Ht.
    apply new_messages_app. cbn [posting outbox].
    rewrite Ho, <- !app_assoc. reflexivity.
  - intros url Hd Ht. rewrite Hd, Ht.
    apply new_messages_app. cbn [posting outbox].
    rewrite Ho, <- !app_assoc. reflexivity.
  - intros e Hd. rewrite Hd.
    apply new_messages_app. cbn [posting outbox].
    rewrite Ho, <- !app_assoc. reflexivity.
Qed.

Lemma publication_outcomes_witness :
  new_messages initial
    (snd (process_pitch_plan demo_bot "acme" "C042" "U7" happy_world initial))
  = [ PostMessage "C042" (step1_text "acme");
      PostMessage "C042" step2_text;
      PostMessage "C042" step3_text;
      PostMessage "C042"
        (success_message demo_bot "acme"
           (PStr "https://docs.example.com/d/1")
           (Pipeline.bundle acme_record (PStr "analysis and plan")
              (PStr "three paragraphs") (PStr "analysis and plan")
              "2024-05-01 12:00:00")) ].
Proof.
  apply (proj1 (publication_outcomes demo_bot "acme" "C042" "U7" happy_world
                  initial acme_record
                  (Pipeline.bundle acme_record (PStr "analysis and plan")
                     (PStr "three paragraphs") (PStr "analysis and plan")
                     "2024-05-01 12:00:00")
                  eq_refl eq_refl eq_refl eq_refl)
           (PStr "https://docs.example.com/d/1")); reflexivity.
Defined.

Lemma Contains_trans (h m n : string) :
  Contains h m -> Contains m n -> Contains h n.
Proof.
  intros (p & q & ->) (p' & q' & ->). exists (p ++ p'), (q' ++ q).
  now rewrite !append_assoc.
Qed.

Lemma join_Contains (sep e : string) (l : list string) :
  In e l -> Contains (join sep l) e.
Proof.
  induction l as [|x l IH]; [intros []|].
  intros [<-|Hin].
  - destruct l; cbn [join]; [apply Contains_end | apply Contains_here].
  - destruct l as [|y l]; [destruct Hin|].
    change (join sep (x :: y :: l)) with (x ++ sep ++ join sep (y :: l)).
    do 2 apply Contains_skip. apply IH, Hin.
Qed.

Lemma Contains_front (label v rest : string) :
  Contains (label ++ v ++ rest) (label ++ v).
Proof. apply (Contains_label EmptyString). Qed.

Ltac find_label :=
  first [ apply Contains_front
        | apply Contains_skip; find_label ].

(** X15: the success message names the client, gives the location of the
    document as the backend returned it, lists every configured recipient
    and shows the timestamp of the bundle. *)
Theorem success_message_content self (client_name : string)
    (document_url : pyval) (pitch_plan_data : dict) (stamp : string) :
  Py.lookup "generated_at" pitch_plan_data = Some (PStr stamp) ->
  let msg := success_message self client_name document_url pitch_plan_data in
  Contains msg ("✅ **Pitch Plan Complete - " ++ client_name) /\
  Contains msg ("📄 **Document:** " ++ Py.str document_url) /\
  Contains msg ("📧 **Shared with:** " ++ join ", " (team_emails self)) /\
  (forall e, In e (team_emails self) -> Contains msg e) /\
  Contains msg ("⏱️ **Generated:** " ++ stamp).
Proof.
  intros Hs. cbv zeta. unfold success_message, Py.dget. rewrite Hs.
  cbn [Py.str].
  split; [find_label|]. split; [find_label|]. split; [find_label|]. split.
  - intros e He.
    apply Contains_trans with (m := join ", " (team_emails self));
      [find_part | now apply join_Contains].
  - find_part.
Qed.

Lemma success_message_content_witness :
  Contains
    (success_message demo_bot "acme" (PStr "https://docs.example.com/d/1")
       (Pipeline.bundle acme_record (PStr "a") (PStr "b") (PStr "c")
          "2024-05-01 12:00:00"))
    "strategy@nest.example".
Proof.
  apply (proj1 (proj2 (proj2 (proj2
           (success_message_content demo_bot "acme"
              (PStr "https://docs.example.com/d/1")
              (Pipeline.bundle acme_record (PStr "a") (PStr "b") (PStr "c")
                 "2024-05-01 12:00:00")
              "2024-05-01 12:00:00" eq_refl))))).
  simpl. auto.
Defined.

Lemma generate_pitch_plan_log self (client_data : dict) (w : World)
    (st : state) :
  calls (snd (Pipeline.generate_pitch_plan self client_data w st))
  = (calls st
     ++ new_calls st (snd (Pipeline.generate_pitch_plan self client_data w st)))%list.
Proof.
  assert (L : forall s, (exists l, calls s = (calls st ++ l)%list) ->
                        calls s = (calls st ++ new_calls st s)%list).
  { intros s [l E]. unfold new_calls. rewrite E at 1.
    now rewrite E, skipn_length_app. }
  apply L. rewrite generate_pitch_plan_eq.
  assert (S1 : snd (run1 self client_data w st) =
               logged st (strategic_request self client_data))
    by now rewrite run1_eq.
  assert (S2 : forall v1, snd (run2 self client_data w st v1) =
               logged (logged st (strategic_request self client_data))
                 (narrative_request self client_data v1))
    by (intros v1; now rewrite run2_eq, S1).
  assert (S3 : forall v1 v2, snd (run3 self client_data w st v1 v2) =
               logged (logged (logged st (strategic_request self client_data))
                         (narrative_request self client_data v1))
                 (plan_request self client_data v1 v2))
    by (intros v1 v2; now rewrite run3_eq, S2).
  destruct (fst (run1 self client_data w st)) as [v1|];
    [|cbn [snd]; rewrite S1; eexists; reflexivity].
  destruct (Py.truthy v1);
    [|cbn [snd]; rewrite S1; eexists; reflexivity].
  destruct (fst (run2 self client_data w st v1)) as [v2|];
    [|cbn [snd]; rewrite S2; cbn [logged calls]; rewrite <- app_assoc;
      eexists; reflexivity].
  destruct (Py.truthy v2);
    [|cbn [snd]; rewrite S2; cbn [logged calls]; rewrite <- app_assoc;
      eexists; reflexivity].
  destruct (fst (run3 self client_data w st v1 v2)) as [v3|];
    [destruct (Py.truthy v3)|]; cbn [snd]; rewrite S3; cbn [logged calls];
    rewrite <- !app_assoc; eexists; reflexivity.
Qed.

(** X16: the first request of a job is the query of the workspace
    database, and every later request goes to one of the two model
    providers with the headers of that provider: the key of one provider
    is never sent to the other, and the token of the workspace is sent
    to neither. *)
Theorem job_requests_are_addressed self
    (client_name channel_id user_id : string) (w : World) (st : state) :
  exists later,
    new_calls st
      (snd (process_pitch_plan self client_name channel_id user_id w st))
    = query_request (notion_extractor self) (notion_database_id self) :: later
    /\
    forall r, In r later -> addressed (llm_generator self) r.
Proof.
  rewrite process_pitch_plan_run, job_end_eq. cbv zeta. cbn [snd].
  set (query := query_request (notion_extractor self) (notion_database_id self)).
  assert (Hq : forall s, calls s = calls (logged st query) ->
                         new_calls st s = [query]).
  { intros s E. unfold new_calls. rewrite E. apply skipn_length_app. }
  destruct (fst (Notion.extract_client_data _ _ _ w st)) as [cd|e].
  2:{ exists []. split; [now apply Hq | intros r []]. }
  destruct (Py.has_key "error" cd).
  { exists []. split; [now apply Hq | intros r []]. }
  exists (new_calls (logged st query)
            (snd (Pipeline.generate_pitch_plan (llm_generator self) cd w
                    (logged st query)))).
  split; [|intros r; apply generate_pitch_plan_addressed].
  assert (Hg : forall s,
             calls s = calls (snd (Pipeline.generate_pitch_plan
                                     (llm_generator self) cd w
                                     (logged st query))) ->
             new_calls st s
             = query :: new_calls (logged st query)
                          (snd (Pipeline.generate_pitch_plan
                                  (llm_generator self) cd w
                                  (logged st query)))).
  { intros s E. unfold new_calls at 1. rewrite E, generate_pitch_plan_log.
    cbn [logged calls]. rewrite <- app_assoc. apply skipn_length_app. }
  destruct (fst (Pipeline.generate_pitch_plan _ cd w _)) as [plan|e];
    [|now apply Hg].
  destruct (Py.has_key "error" plan).
  { destruct (Py.item (PDict plan) "error"); now apply Hg. }
  destruct (create_pitch_plan_document w plan (team_emails self)) as [url|e];
    [destruct (Py.truthy url)|]; now apply Hg.
Qed.

Lemma job_requests_are_addressed_witness :
  exists later,
    new_calls initial
      (snd (process_pitch_plan demo_bot "acme" "C042" "U7" happy_world
              initial))
    = query_request demo_extractor "db1" :: later /\
    forall r, In r later -> addressed demo_generator r.
Proof.
  destruct (job_requests_are_addressed demo_bot "acme" "C042" "U7"
              happy_world initial) as (later & E & H).
  exists later. split; [exact E | exact H].
Defined.



(** X17: a /start-pitch whose text is empty once stripped is answered
    with the usage reply, to the caller alone: no job is started and no
    request is made; with any other text the job is run for the stripped
    text.  The help command likewise sends one reply to the caller alone
    and makes no request. *)
Theorem commands_without_a_job self (text channel_id user_id : string)
    (w : World) (st : state) :
  (str_strip w text = EmptyString ->
   handle_start_pitch self text channel_id user_id w st
   = (Ok tt, posting st (Respond usage_text "ephemeral"))) /\
  (str_strip w text <> EmptyString ->
   handle_start_pitch self text channel_id user_id w st
   = (Ok tt,
      job_end self (str_strip w text) channel_id w
        (posting st
           (Respond (starting_text (str_strip w text)) "in_channel")))) /\
  Setup.handle_pitch_help w st
  = (Ok tt, posting st (Respond Setup.help_text "ephemeral")) /\
  calls (posting st (Respond usage_text "ephemeral")) = calls st /\
  calls (posting st (Respond Setup.help_text "ephemeral")) = calls st.
Proof.
  split; [|split; [|repeat split]].
  - intros E. unfold handle_start_pitch, bind. cbn [get_world].
    rewrite E. reflexivity.
  - intros Hne. unfold handle_start_pitch, bind. cbn [get_world].
    destruct (str_strip w text) as [|c t]; [now elim Hne|].
    cbn [nonempty negb respond send]. now rewrite process_pitch_plan_run.
Qed.

Lemma commands_without_a_job_witness :
  handle_start_pitch demo_bot ("   " ++ nl) "C042" "U7" happy_world initial
  = (Ok tt, posting initial (Respond usage_text "ephemeral")).
Proof.
  apply (commands_without_a_job demo_bot ("   " ++ nl) "C042" "U7"
           happy_world initial).
  reflexivity.
Defined.

End JobMore.

(** ** Start-up *)

Section StartUp.

Import Str Setup.

Lemma lstrip_head (s : string) :
  match lstrip s with
  | EmptyString => True
  | String c _ => is_space c = false
  end.
Proof.
  induction s as [|c s IH]; [exact I|]. cbn [lstrip].
  destruct (is_space c) eqn:E; [exact IH | exact E].
Qed.

Lemma rstrip_idem (s : string) : rstrip (rstrip s) = rstrip s.
Proof.
  induction s as [|c s IH]; [reflexivity|]. cbn [rstrip].
  destruct (rstrip s) as [|d r] eqn:R.
  - destruct (is_space c) eqn:E; [reflexivity|].
    cbn [rstrip]. now rewrite E.
  - change (rstrip (String c (String d r)))
      with (match rstrip (String d r) with
            | EmptyString =>
                if is_space c then EmptyString else String c EmptyString
            | t' => String c t'
            end).
    now rewrite IH.
Qed.

Lemma rstrip_head (c : ascii) (t : string) :
  is_space c = false -> rstrip (String c t) = String c (rstrip t).
Proof.
  intros E. cbn [rstrip]. destruct (rstrip t); [now rewrite E | reflexivity].
Qed.

Lemma ascii_strip_idem (s : string) :
  ascii_strip (ascii_strip s) = ascii_strip s.
Proof.
  unfold ascii_strip. pose proof (lstrip_head s) as H.
  destruct (lstrip s) as [|c t]; [reflexivity|].
  rewrite (rstrip_head c t H). cbn [lstrip]. rewrite H.
  rewrite <- (rstrip_head c t H). apply rstrip_idem.
Qed.

Lemma has_char_lstrip (x : ascii) (s : string) :
  Py.has_char x s = false -> Py.has_char x (lstrip s) = false.
Proof.
  induction s as [|c s IH]; [reflexivity|]. cbn [lstrip].
  destruct (is_space c); [|easy].
  cbn [Py.has_char]. intros H. apply orb_false_iff in H. now apply IH.
Qed.

Lemma has_char_rstrip (x : ascii) (s : string) :
  Py.has_char x s = false -> Py.has_char x (rstrip s) = false.
Proof.
  induction s as [|c s IH]; [reflexivity|].
  cbn [Py.has_char rstrip]. intros H. apply orb_false_iff in H.
  destruct H as [Hc Hs]. specialize (IH Hs).
  destruct (rstrip s).
  - destruct (is_space c); [reflexivity|]. cbn [Py.has_char].
    now rewrite Hc.
  - cbn [Py.has_char] in *. now rewrite Hc, IH.
Qed.

(** The strip of ASCII white space has the three properties. *)
Lemma ascii_strip_strips : strips ascii_strip.
Proof.
  split; [exact ascii_strip_idem|]. split; [|reflexivity].
  intros c s H. now apply has_char_rstrip, has_char_lstrip.
Qed.

(** A strip that adds no character leaves the empty text empty. *)
Lemma strips_empty (py_strip : string -> string) :
  strips py_strip -> py_strip EmptyString = EmptyString.
Proof.
  intros (_ & H & _). destruct (py_strip EmptyString) as [|c t] eqn:E;
    [reflexivity|].
  specialize (H c EmptyString eq_refl). rewrite E in H.
  cbn [Py.has_char] in H. now rewrite Ascii.eqb_refl in H.
Qed.

Lemma eqb_ascii_sym (a b : ascii) : Ascii.eqb a b = Ascii.eqb b a.
Proof.
  destruct (Ascii.eqb_spec a b) as [->|N].
  - now rewrite Ascii.eqb_refl.
  - destruct (Ascii.eqb_spec b a) as [->|]; [now elim N | reflexivity].
Qed.

Lemma split_pieces (sep : ascii) (s : string) :
  Forall (fun piece => Py.has_char sep piece = false) (split sep s).
Proof.
  induction s as [|c s IH]; cbn [split].
  - repeat constructor.
  - destruct (Ascii.eqb c sep) eqn:E.
    + constructor; [reflexivity | exact IH].
    + destruct (split sep s) as [|p ps].
      * repeat constructor. cbn [Py.has_char].
        now rewrite eqb_ascii_sym, E.
      * inversion IH as [|? ? Hp Hps]; subst. constructor; [|exact Hps].
        cbn [Py.has_char]. now rewrite eqb_ascii_sym, E, Hp.
Qed.

Lemma split_whole (sep : ascii) (a : string) :
  Py.has_char sep a = false -> split sep a = [a].
Proof.
  induction a as [|c a IH]; [reflexivity|].
  cbn [Py.has_char split]. intros H. apply orb_false_iff in H.
  destruct H as [Hc Ha]. rewrite eqb_ascii_sym, Hc, (IH Ha). reflexivity.
Qed.

Lemma split_app (sep : ascii) (a b : string) :
  Py.has_char sep a = false ->
  split sep (a ++ String sep b) = a :: split sep b.
Proof.
  induction a as [|c a IH]; cbn [Py.has_char append split].
  - intros _. now rewrite Ascii.eqb_refl.
  - intros H. apply orb_false_iff in H. destruct H as [Hc Ha].
    rewrite eqb_ascii_sym, Hc, (IH Ha). reflexivity.
Qed.

(** X18: whenever [str.strip] strips idempotently and adds no character,
    every entry of the recipient list parsed at start-up is not empty, is
    left as it is by a further strip and holds no comma; without the
    variable TEAM_EMAILS the list is empty. *)
Theorem team_emails_are_clean (py_strip : string -> string)
    (getenv : string -> option string) :
  strips py_strip ->
  (forall team_emails_str,
     Forall (clean_email py_strip) (team_emails_of py_strip team_emails_str))
  /\ Forall (clean_email py_strip) (init_team_emails py_strip getenv)
  /\ (getenv "TEAM_EMAILS" = None -> init_team_emails py_strip getenv = []).
Proof.
  intros L.
  assert (H : forall s, Forall (clean_email py_strip)
                          (team_emails_of py_strip s)).
  { intros s. unfold team_emails_of. apply Forall_forall. intros e He.
    apply in_map_iff in He. destruct He as (p & <- & Hp).
    apply filter_In in Hp. destruct Hp as [Hp Hn].
    pose proof (split_pieces "," s) as Hs.
    rewrite Forall_forall in Hs. specialize (Hs p Hp).
    destruct L as (L1 & L2 & _). repeat split.
    - intros E. rewrite E in Hn. discriminate Hn.
    - apply L1.
    - now apply L2. }
  split; [exact H|]. split; [apply H|].
  intros E. unfold init_team_emails, team_emails_of. rewrite E.
  cbn [split filter]. rewrite (strips_empty py_strip L). reflexivity.
Qed.

Lemma team_emails_are_clean_witness :
  Forall (clean_email ascii_strip)
    (team_emails_of ascii_strip " sales@nest.example ,, strategy@nest.example")
  /\ init_team_emails ascii_strip (fun _ => None) = [].
Proof.
  pose proof (team_emails_are_clean ascii_strip (fun _ => None)
                ascii_strip_strips) as (H & _ & E).
  split; [apply H | apply E; reflexivity].
Defined.

Lemma parse_cons (py_strip : string -> string) (piece e : string)
    (pieces : list string) :
  py_strip piece = e -> e <> EmptyString ->
  map py_strip
    (filter (fun email => nonempty (py_strip email)) (piece :: pieces))
  = e :: map py_strip
           (filter (fun email => nonempty (py_strip email)) pieces).
Proof.
  intros Hs Hne. cbn [filter]. rewrite Hs.
  destruct e as [|c e]; [now elim Hne|].
  cbn [nonempty map]. now rewrite Hs.
Qed.

Lemma parse_tail (py_strip : string -> string) (e : string)
    (rest : list string) :
  strips py_strip ->
  Forall (clean_email py_strip) (e :: rest) ->
  map py_strip
    (filter (fun email => nonempty (py_strip email))
       (split "," (" " ++ join ", " (e :: rest))))
  = e :: rest.
Proof.
  intros L. pose proof L as (_ & _ & L3).
  revert e. induction rest as [|e2 rest IH]; intros e Hall;
    inversion Hall as [|? ? (Hne & Hs & Hc) Hrest]; subst.
  - cbn [join].
    rewrite split_whole by (cbn [append Py.has_char]; now rewrite Hc).
    now rewrite (parse_cons py_strip _ e) by (rewrite ?L3; assumption).
  - change (" " ++ join ", " (e :: e2 :: rest))
      with ((" " ++ e) ++ String "," (" " ++ join ", " (e2 :: rest))).
    rewrite split_app by (cbn [append Py.has_char]; now rewrite Hc).
    rewrite (parse_cons py_strip _ e) by (rewrite ?L3; assumption).
    f_equal. now apply IH.
Qed.

(** X19: whenever [str.strip] strips idempotently, adds no character and
    strips a space in front, the parse of the recipient list undoes the
    way the success message shows it: a list of entries that are not
    empty, are left as they are by a strip and hold no comma, joined by
    ", ", is parsed back to the same list. *)
Theorem team_emails_round_trip (py_strip : string -> string)
    (emails : list string) :
  strips py_strip ->
  Forall (clean_email py_strip) emails ->
  team_emails_of py_strip (join ", " emails) = emails.
Proof.
  intros L Hall. unfold team_emails_of.
  destruct emails as [|e rest].
  { cbn [join split filter]. rewrite (strips_empty py_strip L). reflexivity. }
  inversion Hall as [|? ? (Hne & Hs & Hc) Hrest]; subst.
  destruct rest as [|e2 rest].
  - cbn [join]. rewrite (split_whole _ _ Hc).
    now rewrite (parse_cons py_strip _ e) by assumption.
  - change (join ", " (e :: e2 :: rest))
      with (e ++ String "," (" " ++ join ", " (e2 :: rest))).
    rewrite (split_app _ _ _ Hc).
    rewrite (parse_cons py_strip _ e) by assumption.
    f_equal. now apply parse_tail.
Qed.

Lemma team_emails_round_trip_witness :
  team_emails_of ascii_strip
    (join ", " ["sales@nest.example"; "strategy@nest.example"])
  = ["sales@nest.example"; "strategy@nest.example"].
Proof.
  apply (team_emails_round_trip ascii_strip
           ["sales@nest.example"; "strategy@nest.example"]
           ascii_strip_strips).
  repeat constructor; discriminate.
Defined.

End StartUp.

(** ** Failures of the transport and shapes of the answers *)

Section Answers.

Import Str Notion Pipeline.

(** X21: the outcome of a stage's HTTP call decides the run.  An answer
    with a status other than 200 makes the orchestrator return the
    failure value of that stage, and an exception of the transport is
    raised by the orchestrator unchanged; this holds at stage 1, and at
    stages 2 and 3 once the stages before them have produced text. *)
Theorem stage_http_outcomes self (client_data : dict) (w : World)
    (st : state) :
  let out := fst (generate_pitch_plan self client_data w st) in
  let n := length (calls st) in
  let failing (r : request) (k : nat) (s : stage) :=
    (forall resp, http_post w k r = Ok resp -> status_code resp <> 200 ->
                  out = Ok (failure s)) /\
    (forall e, http_post w k r = Raise e -> out = Raise e) in
  failing (strategic_request self client_data) n StrategicAnalysis /\
  (forall v1,
     produced (run1 self client_data w st) v1 ->
     failing (narrative_request self client_data v1) (S n)
       NarrativeDevelopment) /\
  (forall v1 v2,
     produced (run1 self client_data w st) v1 ->
     produced (run2 self client_data w st v1) v2 ->
     failing (plan_request self client_data v1 v2) (S (S n)) PlanIntegration).
Proof.
  cbv zeta. rewrite generate_pitch_plan_eq.
  assert (S1 : snd (run1 self client_data w st) =
               logged st (strategic_request self client_data))
    by now rewrite run1_eq.
  assert (S2 : forall v1, snd (run2 self client_data w st v1) =
               logged (logged st (strategic_request self client_data))
                 (narrative_request self client_data v1))
    by (intros v1; now rewrite run2_eq, S1).
  assert (L1 : length (calls (logged st (strategic_request self client_data)))
               = S (length (calls st)))
    by (cbn [logged calls]; rewrite length_app; cbn [length]; lia).
  assert (L2 : forall v1,
             length (calls (logged (logged st (strategic_request self
                                                 client_data))
                              (narrative_request self client_data v1)))
             = S (S (length (calls st))))
    by (intros v1; cbn [logged calls]; rewrite !length_app; cbn [length]; lia).
  split; [|split].
  - rewrite run1_eq. cbn [fst]. split.
    + intros resp Hp Hs. apply Z.eqb_neq in Hs.
      rewrite Hp. cbn [adapter_result]. now rewrite Hs.
    + intros e Hp. now rewrite Hp.
  - intros v1 [-> ->]. rewrite run2_eq, S1, L1. cbn [fst]. split.
    + intros resp Hp Hs. apply Z.eqb_neq in Hs.
      rewrite Hp. cbn [adapter_result]. now rewrite Hs.
    + intros e Hp. now rewrite Hp.
  - intros v1 v2 [-> ->] [-> ->]. rewrite run3_eq, S2, L2. cbn [fst]. split.
    + intros resp Hp Hs. apply Z.eqb_neq in Hs.
      rewrite Hp. cbn [adapter_result]. now rewrite Hs.
    + intros e Hp. now rewrite Hp.
Qed.

Lemma stage_http_outcomes_witness :
  fst (generate_pitch_plan demo_generator acme_min_record offline_world
         initial) = Raise (External "ConnectionError").
Proof.
  apply (proj2 (proj1 (stage_http_outcomes demo_generator acme_min_record
                         offline_world initial))).
  reflexivity.
Defined.

(** X22: what the lookup makes of a 200 answer to the query.  A body
    without the key "results" is read as an empty list: the lookup
    returns [None] and the extraction the not-found value.  A body that
    is JSON but not an object makes the lookup raise [AttributeError],
    results that are null make it raise [TypeError], and a body that is
    not JSON makes it raise the exception of the decoder. *)
Theorem query_answer_shapes self database_id client_name (w : World)
    (st : state) (resp : response) :
  http_post w (length (calls st)) (query_request self database_id) = Ok resp ->
  status_code resp = 200 ->
  let page := fst (find_client_page self database_id client_name w st) in
  (forall body,
     json resp = Ok (PDict body) -> Py.lookup "results" body = None ->
     page = Ok PNone /\
     fst (extract_client_data self database_id client_name w st)
     = Ok (not_found client_name)) /\
  (forall v,
     json resp = Ok v -> (forall body, v <> PDict body) ->
     page = Raise AttributeError) /\
  (forall body,
     json resp = Ok (PDict body) -> Py.lookup "results" body = Some PNone ->
     page = Raise TypeError) /\
  (forall e, json resp = Raise e -> page = Raise e).
Proof.
  intros Hp Hs. cbv zeta.
  rewrite find_client_page_run, extract_client_data_run. cbn [fst].
  unfold found. rewrite Hp, Hs. cbn [Z.eqb Pos.eqb].
  split; [|split; [|split]].
  - intros body Hj Hl. rewrite Hj. cbn [rbind Py.get]. unfold Py.dget.
    rewrite Hl. split; reflexivity.
  - intros v Hj Hv. rewrite Hj. destruct v; try reflexivity.
    now elim (Hv d).
  - intros body Hj Hl. rewrite Hj. cbn [rbind Py.get]. unfold Py.dget.
    now rewrite Hl.
  - intros e Hj. now rewrite Hj.
Qed.

Lemma query_answer_shapes_witness :
  fst (find_client_page demo_extractor "db1" "acme" empty_body_world initial)
  = Ok PNone /\
  fst (extract_client_data demo_extractor "db1" "acme" empty_body_world
         initial) = Ok (not_found "acme").
Proof.
  apply (proj1 (query_answer_shapes demo_extractor "db1" "acme"
                  empty_body_world initial
                  {| status_code := 200; json := Ok (PDict []) |}
                  eq_refl eq_refl) []); reflexivity.
Defined.

(** X23: the lookup reads the query only through [str.lower]: two
    queries that are equal once lowered get the same result from every
    list of pages, and the lookup run for one of them returns what it
    returns for the other, in the same state. *)
Theorem search_ignores_query_case self database_id (query query' : string)
    (w : World) (st : state) :
  lower (str_lower w) query = lower (str_lower w) query' ->
  (forall pages,
     search (str_lower w) query pages = search (str_lower w) query' pages) /\
  find_client_page self database_id query w st
  = find_client_page self database_id query' w st.
Proof.
  intros E.
  assert (H : forall pages,
             search (str_lower w) query pages
             = search (str_lower w) query' pages).
  { induction pages as [|p pages IH]; [reflexivity|].
    cbn [search]. rewrite E, IH. reflexivity. }
  split; [exact H|].
  rewrite !find_client_page_run. f_equal. unfold found.
  destruct (http_post w _ _) as [resp|e]; [|reflexivity].
  destruct (status_code resp =? 200); [|reflexivity].
  destruct (json resp) as [body|e]; [|reflexivity]. cbn [rbind].
  destruct (Py.get body "results" (PList [])) as [results|e]; [|reflexivity].
  cbn [rbind].
  destruct (Py.iter results) as [items|e]; [|reflexivity]. cbn [rbind].
  apply H.
Qed.

Lemma search_ignores_query_case_witness :
  find_client_page demo_extractor "db1" "ACME"
    (workspace [globex_page; acme_page]) initial
  = find_client_page demo_extractor "db1" "acme"
      (workspace [globex_page; acme_page]) initial.
Proof.
  apply (search_ignores_query_case demo_extractor "db1" "ACME" "acme"
           (workspace [globex_page; acme_page]) initial).
  reflexivity.
Defined.

End Answers.
